(** * FacultyDashboard.jsx: the faculty portal's state logic

    A shallow embedding of the [App] component of [src/FacultyDashboard.jsx]:
    its React state, the three effects (Firebase initialisation, profile
    set-up, content subscriptions), the snapshot callbacks and the two
    form-submission handlers, followed by the properties the specification
    states about them.

    Conventions.
    - A JS object with a fixed set of properties is a record; a property
      that may be absent ([undefined]) or [null] has an [option] type.
    - The remote store's per-user profile documents are a [gmap] from the
      user id (the only varying part of the document path) to the data.
    - A document property holds a value of the type the component's own
      writers give it (strings, [Timestamp]s), or is absent.
    - An [await]ed remote call is one atomic step whose outcome ([Reply])
      is supplied by the environment; what a handler does after the
      [await] uses the values its closure captured before it.
    - A character of a [string] stands for one code unit of the JS string.
    - A synchronous library call that may throw returns an [Outcome]; an
      exception that leaves an [async] handler is an unhandled rejection.
    - [console.error] appends to [console]; a rejected promise nobody
      handles is recorded in [unhandled]. *)

From Stdlib Require Import ZArith String Ascii List Bool Lia.
From Stdlib Require Import Sorting.Sorted Sorting.Permutation.
From stdpp Require Import base gmap strings list.

Open Scope string_scope.
Open Scope list_scope.

(** ** JavaScript values used by the component *)

(** [!s] / [s || d] on a string: only the empty string is falsy. *)
Definition truthy_string (s : string) : bool := negb (String.eqb s "").

(** Truthiness of a property that holds a string when present. *)
Definition truthy (o : option string) : bool :=
  match o with
  | Some s => truthy_string s
  | None => false
  end.

(** [s.substring(start, end)]: both indices are clamped to the length and
    swapped when [start > end]. *)
Definition js_substring (start end_ : nat) (s : string) : string :=
  let len := String.length s in
  let a := Nat.min start len in
  let b := Nat.min end_ len in
  let lo := Nat.min a b in
  let hi := Nat.max a b in
  String.substring lo (hi - lo) s.

(** A Firestore [Timestamp] value. *)
Record Timestamp := { seconds : Z; nanoseconds : Z }.

(** A JS [Date]: its time value in milliseconds, [None] for an invalid date. *)
Definition JsDate := option Z.

Definition Error := string.

(** Outcome of a synchronous library call. *)
Inductive Outcome (A : Type) :=
| Returned (a : A)
| Thrown (e : Error).
Arguments Returned {A} a.
Arguments Thrown {A} e.

(** The functions of the JS runtime and of the Firestore SDK that the
    component calls on dates and timestamps.  Their code is not part of the
    repository, so they are parameters of the development; [firebaseSdk]
    below is the instance that follows the SDK.
    [Timestamp_fromDate] may throw.  [Timestamp_toNumber] is the number that
    the [-] operator obtains from a [Timestamp] operand; numbers are integers
    here, since the sort only observes the sign of a difference. *)
Class FirestoreSdk := {
  Date_new : string -> JsDate;
  Timestamp_fromDate : JsDate -> Outcome Timestamp;
  Timestamp_toDate : Timestamp -> JsDate;
  Timestamp_toNumber : Timestamp -> Z
}.

(** Outcome of an awaited remote call. *)
Inductive Reply (A : Type) :=
| Resolved (a : A)
| Rejected (e : Error).
Arguments Resolved {A} a.
Arguments Rejected {A} e.

(** ** Records *)

(** The local profile value ([profile] state) and the profile document. *)
Module Profile.
Record t := mk {
  name : option string;
  facultyId : option string;
  email : option string;
  course : option string;
  lastLogin : option Timestamp
}.
End Profile.

(** [newAssignment] form state. *)
Module NewAssignment.
Record t := mk {
  title : string;
  description : string;
  dueDate : string;
  course : option string
}.
End NewAssignment.

(** [newSchedule] form state. *)
Module NewSchedule.
Record t := mk {
  course : option string;
  location : string;
  time : string;
  day : string;
  instructor : option string
}.
End NewSchedule.

(** Data of a document of the shared assignments collection.  [id] is a
    stored field named "id", which the component never writes but a document
    may carry. *)
Module AssignmentData.
Record t := mk {
  id : option string;
  title : option string;
  description : option string;
  course : option string;
  dueDate : option Timestamp;
  postedBy : option string;
  postedAt : option Timestamp
}.
End AssignmentData.

(** Data of a document of the shared schedule collection; [id] as for
    assignments. *)
Module ScheduleData.
Record t := mk {
  id : option string;
  course : option string;
  location : option string;
  time : option string;
  day : option string;
  instructor : option string;
  postedAt : option Timestamp
}.
End ScheduleData.

(** An element of the local [assignments] list. *)
Module Assignment.
Record t := mk {
  id : string;
  title : option string;
  description : option string;
  course : option string;
  dueDate : option JsDate;
  postedBy : option string;
  postedAt : option Timestamp
}.
End Assignment.

(** An element of the local [schedule] list. *)
Module ScheduleEntry.
Record t := mk {
  id : string;
  course : option string;
  location : option string;
  time : string;
  day : option string;
  instructor : option string;
  postedAt : option Timestamp
}.
End ScheduleEntry.

(** The remote document database, as far as the component touches it. *)
Record Store := {
  profiles : gmap string Profile.t;
  assignmentsColl : list (string * AssignmentData.t);
  scheduleColl : list (string * ScheduleData.t)
}.

Inductive Firestore := firestore.
Inductive Auth := userAuth.

(** The component's React state ([useState] cells, lines 20-38). *)
Record App := {
  db : option Firestore;
  auth : option Auth;
  userId : option string;
  isAuthReady : bool;
  loading : bool;
  assignments : list Assignment.t;
  schedule : list ScheduleEntry.t;
  profile : Profile.t;
  newAssignment : NewAssignment.t;
  newSchedule : NewSchedule.t
}.

Record LogEntry := { message : string; detail : option Error }.

(** The component together with what surrounds it. *)
Record World := {
  app : App;
  remote : Store;
  console : list LogEntry;
  unhandled : list Error;
  mounted : bool;
  (* the [onAuthStateChanged] listener is registered *)
  authListener : bool;
  (* user id whose profile document the profile listener watches *)
  profileSub : option string;
  (* user ids of the [initializeProfile] calls still in flight *)
  pendingInit : list string;
  (* course that filters the two open content subscriptions *)
  contentSub : option string;
  (* number of profile values the profile store has handed to [setProfile] *)
  delivered : nat
}.

(** ** State setters *)

Definition setDb (v : option Firestore) (a : App) : App :=
  {| db := v; auth := auth a; userId := userId a; isAuthReady := isAuthReady a;
     loading := loading a; assignments := assignments a; schedule := schedule a;
     profile := profile a; newAssignment := newAssignment a;
     newSchedule := newSchedule a |}.

Definition setAuth (v : option Auth) (a : App) : App :=
  {| db := db a; auth := v; userId := userId a; isAuthReady := isAuthReady a;
     loading := loading a; assignments := assignments a; schedule := schedule a;
     profile := profile a; newAssignment := newAssignment a;
     newSchedule := newSchedule a |}.

Definition setUserId (v : option string) (a : App) : App :=
  {| db := db a; auth := auth a; userId := v; isAuthReady := isAuthReady a;
     loading := loading a; assignments := assignments a; schedule := schedule a;
     profile := profile a; newAssignment := newAssignment a;
     newSchedule := newSchedule a |}.

Definition setIsAuthReady (v : bool) (a : App) : App :=
  {| db := db a; auth := auth a; userId := userId a; isAuthReady := v;
     loading := loading a; assignments := assignments a; schedule := schedule a;
     profile := profile a; newAssignment := newAssignment a;
     newSchedule := newSchedule a |}.

Definition setLoading (v : bool) (a : App) : App :=
  {| db := db a; auth := auth a; userId := userId a; isAuthReady := isAuthReady a;
     loading := v; assignments := assignments a; schedule := schedule a;
     profile := profile a; newAssignment := newAssignment a;
     newSchedule := newSchedule a |}.

Definition setAssignments (v : list Assignment.t) (a : App) : App :=
  {| db := db a; auth := auth a; userId := userId a; isAuthReady := isAuthReady a;
     loading := loading a; assignments := v; schedule := schedule a;
     profile := profile a; newAssignment := newAssignment a;
     newSchedule := newSchedule a |}.

Definition setSchedule (v : list ScheduleEntry.t) (a : App) : App :=
  {| db := db a; auth := auth a; userId := userId a; isAuthReady := isAuthReady a;
     loading := loading a; assignments := assignments a; schedule := v;
     profile := profile a; newAssignment := newAssignment a;
     newSchedule := newSchedule a |}.

Definition setProfile (v : Profile.t) (a : App) : App :=
  {| db := db a; auth := auth a; userId := userId a; isAuthReady := isAuthReady a;
     loading := loading a; assignments := assignments a; schedule := schedule a;
     profile := v; newAssignment := newAssignment a;
     newSchedule := newSchedule a |}.

Definition setNewAssignment (v : NewAssignment.t) (a : App) : App :=
  {| db := db a; auth := auth a; userId := userId a; isAuthReady := isAuthReady a;
     loading := loading a; assignments := assignments a; schedule := schedule a;
     profile := profile a; newAssignment := v;
     newSchedule := newSchedule a |}.

Definition setNewSchedule (v : NewSchedule.t) (a : App) : App :=
  {| db := db a; auth := auth a; userId := userId a; isAuthReady := isAuthReady a;
     loading := loading a; assignments := assignments a; schedule := schedule a;
     profile := profile a; newAssignment := newAssignment a;
     newSchedule := v |}.

(** Apply a React setter to the component inside the world. *)
Definition render (f : App -> App) (w : World) : World :=
  {| app := f (app w); remote := remote w; console := console w;
     unhandled := unhandled w; mounted := mounted w;
     authListener := authListener w; profileSub := profileSub w;
     pendingInit := pendingInit w; contentSub := contentSub w;
     delivered := delivered w |}.

Definition with_remote (r : Store) (w : World) : World :=
  {| app := app w; remote := r; console := console w;
     unhandled := unhandled w; mounted := mounted w;
     authListener := authListener w; profileSub := profileSub w;
     pendingInit := pendingInit w; contentSub := contentSub w;
     delivered := delivered w |}.

(** [console.error(msg, e)] *)
Definition console_error (msg : string) (e : option Error) (w : World) : World :=
  {| app := app w; remote := remote w;
     console := console w ++ [ {| message := msg; detail := e |} ];
     unhandled := unhandled w; mounted := mounted w;
     authListener := authListener w; profileSub := profileSub w;
     pendingInit := pendingInit w; contentSub := contentSub w;
     delivered := delivered w |}.

(** A promise rejected with [e] that no handler is attached to. *)
Definition unhandled_rejection (e : Error) (w : World) : World :=
  {| app := app w; remote := remote w; console := console w;
     unhandled := unhandled w ++ [e]; mounted := mounted w;
     authListener := authListener w; profileSub := profileSub w;
     pendingInit := pendingInit w; contentSub := contentSub w;
     delivered := delivered w |}.

Definition with_mounted (b : bool) (w : World) : World :=
  {| app := app w; remote := remote w; console := console w;
     unhandled := unhandled w; mounted := b;
     authListener := authListener w; profileSub := profileSub w;
     pendingInit := pendingInit w; contentSub := contentSub w;
     delivered := delivered w |}.

Definition with_authListener (b : bool) (w : World) : World :=
  {| app := app w; remote := remote w; console := console w;
     unhandled := unhandled w; mounted := mounted w;
     authListener := b; profileSub := profileSub w;
     pendingInit := pendingInit w; contentSub := contentSub w;
     delivered := delivered w |}.

Definition with_profileSub (s : option string) (w : World) : World :=
  {| app := app w; remote := remote w; console := console w;
     unhandled := unhandled w; mounted := mounted w;
     authListener := authListener w; profileSub := s;
     pendingInit := pendingInit w; contentSub := contentSub w;
     delivered := delivered w |}.

Definition with_pendingInit (l : list string) (w : World) : World :=
  {| app := app w; remote := remote w; console := console w;
     unhandled := unhandled w; mounted := mounted w;
     authListener := authListener w; profileSub := profileSub w;
     pendingInit := l; contentSub := contentSub w;
     delivered := delivered w |}.

Definition with_contentSub (s : option string) (w : World) : World :=
  {| app := app w; remote := remote w; console := console w;
     unhandled := unhandled w; mounted := mounted w;
     authListener := authListener w; profileSub := profileSub w;
     pendingInit := pendingInit w; contentSub := s;
     delivered := delivered w |}.

(** The profile store hands a value to [setProfile]. *)
Definition deliver_profile (p : Profile.t) (w : World) : World :=
  {| app := setProfile p (app w); remote := remote w; console := console w;
     unhandled := unhandled w; mounted := mounted w;
     authListener := authListener w; profileSub := profileSub w;
     pendingInit := pendingInit w; contentSub := contentSub w;
     delivered := S (delivered w) |}.

Definition with_profiles (m : gmap string Profile.t) (r : Store) : Store :=
  {| profiles := m; assignmentsColl := assignmentsColl r;
     scheduleColl := scheduleColl r |}.

Definition with_assignmentsColl (l : list (string * AssignmentData.t)) (r : Store) : Store :=
  {| profiles := profiles r; assignmentsColl := l;
     scheduleColl := scheduleColl r |}.

Definition with_scheduleColl (l : list (string * ScheduleData.t)) (r : Store) : Store :=
  {| profiles := profiles r; assignmentsColl := assignmentsColl r;
     scheduleColl := l |}.

(** ** Initial state (lines 20-38) *)

Definition initialProfile : Profile.t :=
  {| Profile.name := Some "RBC Faculty"; Profile.facultyId := None;
     Profile.email := Some "faculty@rbc.edu"; Profile.course := Some "CS101";
     Profile.lastLogin := None |}.

Definition initialApp : App :=
  {| db := None; auth := None; userId := None; isAuthReady := false;
     loading := true; assignments := []; schedule := [];
     profile := initialProfile;
     newAssignment :=
       {| NewAssignment.title := ""; NewAssignment.description := "";
          NewAssignment.dueDate := ""; NewAssignment.course := Some "CS101" |};
     newSchedule :=
       {| NewSchedule.course := Some "CS101"; NewSchedule.location := "";
          NewSchedule.time := ""; NewSchedule.day := "Monday";
          NewSchedule.instructor := Some "Dr. Smith" |} |}.

Definition initialWorld (r : Store) : World :=
  {| app := initialApp; remote := r; console := []; unhandled := [];
     mounted := false; authListener := false; profileSub := None;
     pendingInit := []; contentSub := None; delivered := 0 |}.

(** ** The document store boundary *)

(** [!x] on a handle that is either [null] or an object. *)
Definition present {A : Type} (o : option A) : bool :=
  match o with
  | Some _ => true
  | None => false
  end.

(** [getDoc(profileRef)]: resolves with the snapshot of the user's profile
    document ([None] when [exists()] is false), or rejects. *)
Definition getDoc (r : Store) (uid : string) (reply : Reply unit) : Reply (option Profile.t) :=
  match reply with
  | Resolved _ => Resolved (profiles r !! uid)
  | Rejected e => Rejected e
  end.

(** [setDoc(profileRef, data)] *)
Definition setDoc (r : Store) (uid : string) (data : Profile.t) (reply : Reply unit) : Reply Store :=
  match reply with
  | Resolved _ => Resolved (with_profiles (<[uid := data]> (profiles r)) r)
  | Rejected e => Rejected e
  end.

(** [addDoc(collectionRef, data)]: the store picks the new document's id. *)
Definition addDoc {A : Type} (coll : list (string * A)) (data : A) (reply : Reply string) : Reply (list (string * A)) :=
  match reply with
  | Resolved new_id => Resolved (coll ++ [(new_id, data)])
  | Rejected e => Rejected e
  end.

(** ** [Array.prototype.sort]

    The sort is stable and places [a] before [b] when [cmp a b < 0]; for a
    consistent comparator the result is determined, and a stable insertion
    sort computes it. *)
Fixpoint sort_insert {A : Type} (cmp : A -> A -> Z) (x : A) (l : list A) : list A :=
  match l with
  | [] => [x]
  | y :: l' => if (cmp x y <=? 0)%Z then x :: y :: l' else y :: sort_insert cmp x l'
  end.

Fixpoint Array_sort {A : Type} (cmp : A -> A -> Z) (l : list A) : list A :=
  match l with
  | [] => []
  | x :: l' => sort_insert cmp x (Array_sort cmp l')
  end.

(** An operand of the comparator's subtraction: [x.postedAt || 0] is the
    timestamp when the property is present and the number [0] otherwise. *)
Inductive operand :=
| OTimestamp (t : Timestamp)
| ONumber (n : Z).

Definition or_zero (o : option Timestamp) : operand :=
  match o with
  | Some t => OTimestamp t
  | None => ONumber 0
  end.

Inductive AssignmentField := F_title | F_description | F_dueDate.
Inductive ScheduleField := F_location | F_time | F_day.

(** What the initialisation effect meets (lines 44-93): no configuration;
    a throw of [initializeApp], [getFirestore] or [getAuth], before the
    handles are stored; a throw of [onAuthStateChanged], after they are
    stored; or none of these. *)
Inductive InitOutcome :=
| ConfigMissing
| InitThrows (e : Error)
| ListenThrows (e : Error)
| InitOk.

#[global] Instance Firestore_eq_dec : EqDecision Firestore.
Proof. solve_decision. Defined.

#[global] Instance Timestamp_eq_dec : EqDecision Timestamp.
Proof. solve_decision. Defined.

(** ** The SDK

    The instance of [FirestoreSdk] that follows the JS engine and the
    Firestore SDK, for the values the component meets. *)

Definition digit_of (c : ascii) : option Z :=
  let n := Z.of_nat (nat_of_ascii c) in
  if ((48 <=? n) && (n <=? 57))%Z then Some (n - 48)%Z else None.

Fixpoint digits_value (acc : Z) (s : string) : option Z :=
  match s with
  | EmptyString => Some acc
  | String c s' =>
      match digit_of c with
      | Some d => digits_value (10 * acc + d)%Z s'
      | None => None
      end
  end.

Fixpoint split_dash (cur : string) (s : string) : list string :=
  match s with
  | EmptyString => [cur]
  | String c s' =>
      if Ascii.eqb c "-"%char then cur :: split_dash "" s'
      else split_dash (cur ++ String c "")%string s'
  end.

Definition is_leap (y : Z) : bool :=
  ((y mod 4 =? 0) && (negb (y mod 100 =? 0) || (y mod 400 =? 0)))%Z.

Definition days_in_month (y m : Z) : Z :=
  (if m =? 2 then (if is_leap y then 29 else 28)
   else if (m =? 4) || (m =? 6) || (m =? 9) || (m =? 11) then 30 else 31)%Z.

(** Days from 1970-01-01 to the given day of the Gregorian calendar. *)
Definition days_from_civil (y m d : Z) : Z :=
  (let y' := if m <=? 2 then y - 1 else y in
   let era := y' / 400 in
   let yoe := y' - era * 400 in
   let mp := (m + 9) mod 12 in
   let doy := (153 * mp + 2) / 5 + d - 1 in
   let doe := yoe * 365 + yoe / 4 - yoe / 100 + doy in
   era * 146097 + doe - 719468)%Z.

(** [new Date(s)] for the values of a date input (line 286): "yyyy-mm-dd"
    with a year of four or more digits and a day of the calendar, read as
    midnight UTC (a year of more than four digits goes through the engine's
    fallback parser, which reads local time: the zone is taken to be UTC);
    any other string gives an invalid date.  A date beyond the range of
    [Date] (8.64e15 ms) is invalid as well. *)
Definition parse_date (s : string) : JsDate :=
  match split_dash "" s with
  | [ys; ms; ds] =>
      if (4 <=? String.length ys)%nat && (String.length ms =? 2)%nat
         && (String.length ds =? 2)%nat
      then
        match digits_value 0 ys, digits_value 0 ms, digits_value 0 ds with
        | Some y, Some m, Some d =>
            if ((1 <=? m) && (m <=? 12) && (1 <=? d) && (d <=? days_in_month y m))%Z
            then
              let t := (days_from_civil y m d * 86400000)%Z in
              if (t <=? 8640000000000000)%Z then Some t else None
            else None
        | _, _, _ => None
        end
      else None
  | _ => None
  end.

(** The bounds the [Timestamp] constructor checks: years 0001 to 9999. *)
Definition MIN_SECONDS : Z := (-62135596800)%Z.
Definition MAX_SECONDS : Z := 253402300800%Z.

(** A timestamp the constructor accepts; the store returns no other. *)
Definition validTimestamp (t : Timestamp) : Prop :=
  (MIN_SECONDS <= seconds t < MAX_SECONDS)%Z
  /\ (0 <= nanoseconds t < 1000000000)%Z.

(** Stands for the [Timestamp] whose two fields are NaN. *)
Definition notATime : Timestamp := {| seconds := 0; nanoseconds := -1 |}.

(** [Timestamp.fromDate(d)] is [Timestamp.fromMillis(d.getTime())]: the
    milliseconds are split into whole seconds and nanoseconds and the
    constructor throws when the seconds are out of its bounds.  For an
    invalid date both fields are NaN, which no check of the constructor
    rejects; the model's integer fields cannot hold NaN and [notATime]
    stands for that value. *)
Definition fromDate (d : JsDate) : Outcome Timestamp :=
  match d with
  | None => Returned notATime
  | Some ms =>
      let secs := (ms / 1000)%Z in
      let nanos := ((ms - secs * 1000) * 1000000)%Z in
      if (secs <? MIN_SECONDS)%Z then Thrown "Timestamp seconds out of range"
      else if (MAX_SECONDS <=? secs)%Z then Thrown "Timestamp seconds out of range"
      else Returned {| seconds := secs; nanoseconds := nanos |}
  end.

(** [t.toDate()] is [new Date(t.seconds * 1000 + t.nanoseconds / 1e6)];
    [Date] drops the fraction of a millisecond. *)
Definition toDate (t : Timestamp) : JsDate :=
  Some (Z.quot (seconds t * 1000000000 + nanoseconds t) 1000000)%Z.

(** The integer nearest to [n / d], ties to the even one ([0 < d]). *)
Definition round_half_even (n d : Z) : Z :=
  (let q := n / d in
   let r := n mod d in
   if 2 * r <? d then q
   else if d <? 2 * r then q + 1
   else if Z.even q then q else q + 1)%Z.

(** The double nearest to [n / d], as a multiple of [2 ^ -82], for
    [n / d] zero or at least [2 ^ -30]: with [e] the exponent of [n / d]
    plus 30, the 53-bit significand is [n / d] in units of [2 ^ (e - 82)],
    rounded to the nearest integer, ties to even. *)
Definition nearest_double (n d : Z) : Z :=
  (if n <=? 0 then 0
   else
     let e := Z.log2 (n * 2 ^ 30 / d) in
     let m :=
       round_half_even (n * 2 ^ Z.max 0 (82 - e)) (d * 2 ^ Z.max 0 (e - 82)) in
     m * 2 ^ e)%Z.

(** Nanoseconds from the start of year 0001 to [t]. *)
Definition sinceYearOne (t : Timestamp) : Z :=
  ((seconds t - MIN_SECONDS) * 1000000000 + nanoseconds t)%Z.

(** The number [-] obtains from a timestamp: [valueOf()] prints the seconds
    since year 0001 on 12 digits, a point and the nanoseconds on 9 digits,
    and the string is converted to the nearest double.  The result is in
    units of [2 ^ -82], in which every such double is an integer. *)
Definition toNumber (t : Timestamp) : Z :=
  nearest_double (sinceYearOne t) 1000000000.

Definition firebaseSdk : FirestoreSdk :=
  {| Date_new := parse_date;
     Timestamp_fromDate := fromDate;
     Timestamp_toDate := toDate;
     Timestamp_toNumber := toNumber |}.

(** Sample data: an empty store, a clock reading, and a state in which the
    database handle is set, the session is ready, the profile is that of
    "Dr. Smith" teaching "CS101", and both forms are filled in. *)
Definition emptyStore : Store :=
  {| profiles := ∅; assignmentsColl := []; scheduleColl := [] |}.

Definition sampleNow : Timestamp :=
  {| seconds := 1762041600; nanoseconds := 0 |}.

Definition sampleApp : App :=
  {| db := Some firestore; auth := Some userAuth;
     userId := Some "abcdefgh12345"; isAuthReady := true; loading := false;
     assignments := []; schedule := [];
     profile :=
       {| Profile.name := Some "Dr. Smith"; Profile.facultyId := Some "abcdefgh";
          Profile.email := Some "smith@rbc.edu"; Profile.course := Some "CS101";
          Profile.lastLogin := None |};
     newAssignment :=
       {| NewAssignment.title := "Essay 1";
          NewAssignment.description := "Two pages on recursion";
          NewAssignment.dueDate := "2025-12-01";
          NewAssignment.course := Some "CS101" |};
     newSchedule :=
       {| NewSchedule.course := Some "BIO205"; NewSchedule.location := "SW-305";
          NewSchedule.time := "9:00-10:30"; NewSchedule.day := "Monday";
          NewSchedule.instructor := Some "Dr. Jones" |} |}.

Definition sampleWorld : World :=
  {| app := sampleApp; remote := emptyStore; console := []; unhandled := [];
     mounted := true; authListener := true;
     profileSub := Some "abcdefgh12345"; pendingInit := ["abcdefgh12345"];
     contentSub := Some "CS101"; delivered := 1 |}.

(** [sampleWorld] with a due date beyond year 9999 typed into the form. *)
Definition lateDueWorld : World :=
  render
    (setNewAssignment
       {| NewAssignment.title := "Essay 1";
          NewAssignment.description := "Two pages on recursion";
          NewAssignment.dueDate := "10000-01-01";
          NewAssignment.course := Some "CS101" |})
    sampleWorld.

Section Component.
Context `{Sdk : FirestoreSdk}.

Definition ToNumber (x : operand) : Z :=
  match x with
  | OTimestamp t => Timestamp_toNumber t
  | ONumber n => n
  end.

Definition js_minus (x y : operand) : Z := (ToNumber x - ToNumber y)%Z.

(** *** Initialisation and authentication (lines 44-93) *)

Definition initFirebase (o : InitOutcome) (w : World) : World :=
  match o with
  | ConfigMissing =>
      render (setLoading false)
        (console_error "Firebase config is missing. App cannot initialize." None w)
  | InitThrows e =>
      render (setLoading false)
        (console_error "Failed to initialize Firebase:" (Some e) w)
  | ListenThrows e =>
      render (setLoading false)
        (console_error "Failed to initialize Firebase:" (Some e)
           (render (setAuth (Some userAuth)) (render (setDb (Some firestore)) w)))
  | InitOk =>
      with_authListener true
        (render (setAuth (Some userAuth)) (render (setDb (Some firestore)) w))
  end.

(** [handleAuth]: a failed sign-in is caught and logged. *)
Definition handleAuth (r : Reply unit) (w : World) : World :=
  match r with
  | Resolved _ => w
  | Rejected e => console_error "Firebase authentication failed:" (Some e) w
  end.

(** The [onAuthStateChanged] callback; [uuid] is what [crypto.randomUUID()]
    returns if it is called. *)
Definition onAuthStateChanged (user : option string) (uuid : string) (w : World) : World :=
  let w1 :=
    match user with
    | Some uid => render (setUserId (Some uid)) w
    | None => render (setUserId (Some uuid)) w
    end in
  render (setLoading false) (render (setIsAuthReady true) w1).

(** *** Profile set-up (lines 98-133) *)

Definition defaultProfile (uid : string) (now : Timestamp) : Profile.t :=
  {| Profile.name := Some "Dr. Jane Smith";
     Profile.facultyId := Some (js_substring 0 8 uid);
     Profile.email := Some "jane.smith@rbc.edu";
     Profile.course := Some "CS101";
     Profile.lastLogin := Some now |}.

(** [initializeProfile] for the user id [uid] captured by the effect.  The
    function has no [try]/[catch] and its promise is dropped by the caller,
    so a rejected [getDoc] or [setDoc] is an unhandled rejection.  The read
    and the write of one call are one step here: two calls in flight at the
    same time are not interleaved, and nothing below is stated about such
    calls. *)
Definition initializeProfile (uid : string) (now : Timestamp)
    (read write : Reply unit) (w : World) : World :=
  match getDoc (remote w) uid read with
  | Rejected e => unhandled_rejection e w
  | Resolved None =>
      let defaultP := defaultProfile uid now in
      match setDoc (remote w) uid defaultP write with
      | Rejected e => unhandled_rejection e w
      | Resolved r' => deliver_profile defaultP (with_remote r' w)
      end
  | Resolved (Some data) => deliver_profile data w
  end.

(** The profile listener's snapshot callback. *)
Definition onProfileSnapshot (docSnap : option Profile.t) (w : World) : World :=
  match docSnap with
  | Some data => deliver_profile data w
  | None => w
  end.

Definition onProfileError (e : Error) (w : World) : World :=
  console_error "Error listening to faculty profile:" (Some e) w.

Definition profileEffect (w : World) : World :=
  let a := app w in
  let w0 := with_profileSub None w in
  if negb (present (db a)) || negb (truthy (userId a)) || negb (isAuthReady a)
  then w0
  else
    match userId a with
    | Some uid => with_profileSub (Some uid) (with_pendingInit (pendingInit w0 ++ [uid]) w0)
    | None => w0
    end.

(** *** Content subscriptions (lines 136-173) *)

(** [{ id: d.id, ...d.data(), dueDate: ... }]: the spread comes after
    [id], so a stored field named "id" replaces the document id. *)
Definition assignmentOfDoc (d : string * AssignmentData.t) : Assignment.t :=
  let data := snd d in
  {| Assignment.id :=
       match AssignmentData.id data with
       | Some stored => stored
       | None => fst d
       end;
     Assignment.title := AssignmentData.title data;
     Assignment.description := AssignmentData.description data;
     Assignment.course := AssignmentData.course data;
     Assignment.dueDate :=
       match AssignmentData.dueDate data with
       | Some t => Some (Timestamp_toDate t)
       | None => None
       end;
     Assignment.postedBy := AssignmentData.postedBy data;
     Assignment.postedAt := AssignmentData.postedAt data |}.

(** [(a, b) => (b.postedAt || 0) - (a.postedAt || 0)] *)
Definition byPostedAt (a b : Assignment.t) : Z :=
  js_minus (or_zero (Assignment.postedAt b)) (or_zero (Assignment.postedAt a)).

(** The time by which the specification orders assignments: the number of
    [postedAt], and [0] for a record without [postedAt]. *)
Definition postedAtOrZero (a : Assignment.t) : Z :=
  match Assignment.postedAt a with
  | Some t => Timestamp_toNumber t
  | None => 0%Z
  end.

(** [a] may stand before [b] in a list in descending order of posting. *)
Definition notEarlier (a b : Assignment.t) : Prop :=
  (postedAtOrZero b <= postedAtOrZero a)%Z.

(** The list the assignments listener hands to [setAssignments]. *)
Definition assignmentsList (docs : list (string * AssignmentData.t)) : list Assignment.t :=
  Array_sort byPostedAt (map assignmentOfDoc docs).

Definition onAssignmentsSnapshot (docs : list (string * AssignmentData.t)) (w : World) : World :=
  render (setAssignments (assignmentsList docs)) w.

Definition onAssignmentsError (e : Error) (w : World) : World :=
  console_error "Error listening to assignments:" (Some e) w.

(** [{ id: d.id, ...d.data(), time: d.data().time || 'N/A' }]; a stored
    field named "id" replaces the document id here too. *)
Definition scheduleEntryOfDoc (d : string * ScheduleData.t) : ScheduleEntry.t :=
  let data := snd d in
  {| ScheduleEntry.id :=
       match ScheduleData.id data with
       | Some stored => stored
       | None => fst d
       end;
     ScheduleEntry.course := ScheduleData.course data;
     ScheduleEntry.location := ScheduleData.location data;
     ScheduleEntry.time :=
       match ScheduleData.time data with
       | Some s => if truthy_string s then s else "N/A"
       | None => "N/A"
       end;
     ScheduleEntry.day := ScheduleData.day data;
     ScheduleEntry.instructor := ScheduleData.instructor data;
     ScheduleEntry.postedAt := ScheduleData.postedAt data |}.

Definition onScheduleSnapshot (docs : list (string * ScheduleData.t)) (w : World) : World :=
  render (setSchedule (map scheduleEntryOfDoc docs)) w.

Definition onScheduleError (e : Error) (w : World) : World :=
  console_error "Error listening to schedule:" (Some e) w.

Definition contentEffect (w : World) : World :=
  let a := app w in
  let w0 := with_contentSub None w in
  if negb (present (db a)) || negb (isAuthReady a)
     || negb (truthy (Profile.course (profile a)))
  then w0
  else with_contentSub (Profile.course (profile a)) w0.

(** *** Form handlers (lines 177-229) *)

(** [setNewAssignment(prev => ({ ...prev, [e.target.name]: e.target.value }))]
    for the inputs of the assignment form that carry the handler. *)
Definition handleAssignmentChange (f : AssignmentField) (v : string) (w : World) : World :=
  let prev := newAssignment (app w) in
  let next :=
    match f with
    | F_title =>
        {| NewAssignment.title := v;
           NewAssignment.description := NewAssignment.description prev;
           NewAssignment.dueDate := NewAssignment.dueDate prev;
           NewAssignment.course := NewAssignment.course prev |}
    | F_description =>
        {| NewAssignment.title := NewAssignment.title prev;
           NewAssignment.description := v;
           NewAssignment.dueDate := NewAssignment.dueDate prev;
           NewAssignment.course := NewAssignment.course prev |}
    | F_dueDate =>
        {| NewAssignment.title := NewAssignment.title prev;
           NewAssignment.description := NewAssignment.description prev;
           NewAssignment.dueDate := v;
           NewAssignment.course := NewAssignment.course prev |}
    end in
  render (setNewAssignment next) w.

Definition handleScheduleChange (f : ScheduleField) (v : string) (w : World) : World :=
  let prev := newSchedule (app w) in
  let next :=
    match f with
    | F_location =>
        {| NewSchedule.course := NewSchedule.course prev;
           NewSchedule.location := v;
           NewSchedule.time := NewSchedule.time prev;
           NewSchedule.day := NewSchedule.day prev;
           NewSchedule.instructor := NewSchedule.instructor prev |}
    | F_time =>
        {| NewSchedule.course := NewSchedule.course prev;
           NewSchedule.location := NewSchedule.location prev;
           NewSchedule.time := v;
           NewSchedule.day := NewSchedule.day prev;
           NewSchedule.instructor := NewSchedule.instructor prev |}
    | F_day =>
        {| NewSchedule.course := NewSchedule.course prev;
           NewSchedule.location := NewSchedule.location prev;
           NewSchedule.time := NewSchedule.time prev;
           NewSchedule.day := v;
           NewSchedule.instructor := NewSchedule.instructor prev |}
    end in
  render (setNewSchedule next) w.

(** The early-return test of [handlePostAssignment] (line 187). *)
Definition assignmentRejected (a : App) : bool :=
  negb (present (db a))
  || negb (truthy_string (NewAssignment.title (newAssignment a)))
  || negb (truthy_string (NewAssignment.description (newAssignment a)))
  || negb (truthy_string (NewAssignment.dueDate (newAssignment a)))
  || negb (truthy (Profile.course (profile a))).

(** The object literal of lines 189-196.  It is built before the [try]
    statement, so a throw of [Timestamp.fromDate] leaves the handler. *)
Definition assignmentData (now : Timestamp) (a : App) : Outcome AssignmentData.t :=
  match Timestamp_fromDate (Date_new (NewAssignment.dueDate (newAssignment a))) with
  | Returned due =>
      Returned
        {| AssignmentData.id := None;
           AssignmentData.title := Some (NewAssignment.title (newAssignment a));
           AssignmentData.description :=
             Some (NewAssignment.description (newAssignment a));
           AssignmentData.course := Profile.course (profile a);
           AssignmentData.dueDate := Some due;
           AssignmentData.postedBy := Profile.name (profile a);
           AssignmentData.postedAt := Some now |}
  | Thrown e => Thrown e
  end.

Definition resetAssignmentForm (a : App) : NewAssignment.t :=
  {| NewAssignment.title := ""; NewAssignment.description := "";
     NewAssignment.dueDate := "";
     NewAssignment.course := Profile.course (profile a) |}.

(** [handlePostAssignment]; [now] is what [Timestamp.now()] returns and
    [reply] the outcome of the awaited [addDoc], if it is called.  The
    handler is [async] and its promise is dropped by the form, so an
    exception outside its [try] is an unhandled rejection. *)
Definition handlePostAssignment (now : Timestamp) (reply : Reply string) (w : World) : World :=
  let a := app w in
  if assignmentRejected a then w
  else
    match assignmentData now a with
    | Thrown e => unhandled_rejection e w
    | Returned data =>
        match addDoc (assignmentsColl (remote w)) data reply with
        | Resolved coll' =>
            render (setNewAssignment (resetAssignmentForm a))
              (with_remote (with_assignmentsColl coll' (remote w)) w)
        | Rejected e => console_error "Error posting assignment:" (Some e) w
        end
    end.

(** The early-return test of [handlePostSchedule] (line 210). *)
Definition scheduleRejected (a : App) : bool :=
  negb (present (db a))
  || negb (truthy_string (NewSchedule.location (newSchedule a)))
  || negb (truthy_string (NewSchedule.time (newSchedule a)))
  || negb (truthy_string (NewSchedule.day (newSchedule a)))
  || negb (truthy (Profile.course (profile a))).

Definition scheduleData (now : Timestamp) (a : App) : ScheduleData.t :=
  {| ScheduleData.id := None;
     ScheduleData.course := Profile.course (profile a);
     ScheduleData.location := Some (NewSchedule.location (newSchedule a));
     ScheduleData.time := Some (NewSchedule.time (newSchedule a));
     ScheduleData.day := Some (NewSchedule.day (newSchedule a));
     ScheduleData.instructor := Profile.name (profile a);
     ScheduleData.postedAt := Some now |}.

Definition resetScheduleForm (a : App) : NewSchedule.t :=
  {| NewSchedule.course := Profile.course (profile a);
     NewSchedule.location := ""; NewSchedule.time := "";
     NewSchedule.day := "Monday";
     NewSchedule.instructor := Profile.name (profile a) |}.

Definition handlePostSchedule (now : Timestamp) (reply : Reply string) (w : World) : World :=
  let a := app w in
  if scheduleRejected a then w
  else
    let data := scheduleData now a in
    match addDoc (scheduleColl (remote w)) data reply with
    | Resolved coll' =>
        render (setNewSchedule (resetScheduleForm a))
          (with_remote (with_scheduleColl coll' (remote w)) w)
    | Rejected e => console_error "Error posting schedule:" (Some e) w
    end.

(** *** The component as a transition system *)

Inductive Event :=
| Mount (o : InitOutcome)
| SignInDone (r : Reply unit)
| AuthStateChanged (user : option string) (uuid : string)
| ProfileInit (uid : string) (now : Timestamp) (read write : Reply unit)
| ProfileSnapshot (docSnap : option Profile.t)
| ProfileError (e : Error)
| AssignmentsSnapshot (docs : list (string * AssignmentData.t))
| AssignmentsError (e : Error)
| ScheduleSnapshot (docs : list (string * ScheduleData.t))
| ScheduleError (e : Error)
| AssignmentChange (f : AssignmentField) (v : string)
| ScheduleChange (f : ScheduleField) (v : string)
| PostAssignment (now : Timestamp) (reply : Reply string)
| PostSchedule (now : Timestamp) (reply : Reply string).

(** Remove the first occurrence of [uid] from the calls in flight. *)
Fixpoint remove_first (uid : string) (l : list string) : list string :=
  match l with
  | [] => []
  | x :: l' => if String.eqb x uid then l' else x :: remove_first uid l'
  end.

Definition is_pending (uid : string) (l : list string) : bool :=
  existsb (String.eqb uid) l.

(** The callback an event runs; an event whose listener is not registered
    (or whose call is not in flight) does nothing. *)
Definition handle (e : Event) (w : World) : World :=
  match e with
  | Mount o =>
      if mounted w then w else initFirebase o (with_mounted true w)
  | SignInDone r =>
      if authListener w then handleAuth r w else w
  | AuthStateChanged user uuid =>
      if authListener w then onAuthStateChanged user uuid w else w
  | ProfileInit uid now read write =>
      if is_pending uid (pendingInit w)
      then initializeProfile uid now read write
             (with_pendingInit (remove_first uid (pendingInit w)) w)
      else w
  | ProfileSnapshot docSnap =>
      if present (profileSub w) then onProfileSnapshot docSnap w else w
  | ProfileError e =>
      if present (profileSub w) then onProfileError e w else w
  | AssignmentsSnapshot docs =>
      if present (contentSub w) then onAssignmentsSnapshot docs w else w
  | AssignmentsError e =>
      if present (contentSub w) then onAssignmentsError e w else w
  | ScheduleSnapshot docs =>
      if present (contentSub w) then onScheduleSnapshot docs w else w
  | ScheduleError e =>
      if present (contentSub w) then onScheduleError e w else w
  | AssignmentChange f v => handleAssignmentChange f v w
  | ScheduleChange f v => handleScheduleChange f v w
  | PostAssignment now reply => handlePostAssignment now reply w
  | PostSchedule now reply => handlePostSchedule now reply w
  end.

(** The filter the content effect subscribes with, if it subscribes, in a
    given React state (lines 137-141 and 156). *)
Definition contentTarget (a : App) : option string :=
  if negb (present (db a)) || negb (isAuthReady a)
     || negb (truthy (Profile.course (profile a)))
  then None
  else Profile.course (profile a).

(** Dependency arrays of the two data effects (lines 133 and 173). *)
Definition profileDeps (a : App) : option Firestore * option string * bool :=
  (db a, userId a, isAuthReady a).

Definition contentDeps (a : App) : option Firestore * bool * option string :=
  (db a, isAuthReady a, Profile.course (profile a)).

(** After a render React re-runs an effect (clean-up first) when one of its
    dependencies differs from the previous render's. *)
Definition run_effects (prev : App) (w : World) : World :=
  let w1 :=
    if decide (profileDeps prev = profileDeps (app w)) then w else profileEffect w in
  if decide (contentDeps prev = contentDeps (app w1)) then w1 else contentEffect w1.

Definition step (e : Event) (w : World) : World :=
  run_effects (app w) (handle e w).

Definition run (es : list Event) (w : World) : World :=
  fold_left (fun w e => step e w) es w.

Inductive reachable (r0 : Store) : World -> Prop :=
| reachable_init : reachable r0 (initialWorld r0)
| reachable_step e w : reachable r0 w -> reachable r0 (step e w).

(** The records whose posting time is the number [k]. *)
Definition postedAtIs (k : Z) (a : Assignment.t) : bool :=
  (postedAtOrZero a =? k)%Z.

(** The user id the profile effect listens on, if it listens, in a given
    React state (line 99). *)
Definition profileTarget (a : App) : option string :=
  if negb (present (db a)) || negb (truthy (userId a)) || negb (isAuthReady a)
  then None
  else userId a.

(** *** Rendering (lines 362-535)

    What the component puts on the screen, without the markup: which
    screen, which page of the dashboard, and the state values the page
    shows.  [activeTab] is the tab the navigation buttons last selected. *)

(** A list page: the cards, or the notice shown for an empty list. *)
Inductive Listing (A : Type) :=
| EmptyNotice (course : option string)
| Cards (items : list A).
Arguments EmptyNotice {A} course.
Arguments Cards {A} items.

Definition listing {A : Type} (course : option string) (l : list A) : Listing A :=
  match l with
  | [] => EmptyNotice course
  | _ :: _ => Cards l
  end.

Record ProfileCard := {
  shownName : option string;
  shownFacultyId : option string;
  shownEmail : option string;
  shownCourse : option string;
  shownUserId : option string
}.

Inductive Content :=
| PreparingDashboard
| AssignmentsPage (course : option string) (list_ : Listing Assignment.t)
| SchedulePage (course : option string) (list_ : Listing ScheduleEntry.t)
| ProfilePage (card : ProfileCard)
| NoContent.

Inductive Screen :=
| LoadingPortal
| Dashboard (footerName footerCourse : option string) (content : Content).

(** [profile.facultyId || userId.substring(0, 8)] (line 443); [None] when
    the method call on a [null] user id throws. *)
Definition facultyIdShown (a : App) : option (option string) :=
  if truthy (Profile.facultyId (profile a))
  then Some (Profile.facultyId (profile a))
  else
    match userId a with
    | Some uid => Some (Some (js_substring 0 8 uid))
    | None => None
    end.

(** [renderContent] (lines 362-465); [None] when rendering throws. *)
Definition renderContent (activeTab : string) (a : App) : option Content :=
  if negb (isAuthReady a) then Some PreparingDashboard
  else if String.eqb activeTab "assignments" then
    Some (AssignmentsPage (Profile.course (profile a))
            (listing (Profile.course (profile a)) (assignments a)))
  else if String.eqb activeTab "schedule" then
    Some (SchedulePage (Profile.course (profile a))
            (listing (Profile.course (profile a)) (schedule a)))
  else if String.eqb activeTab "profile" then
    match facultyIdShown a with
    | Some fid =>
        Some (ProfilePage
                {| shownName := Profile.name (profile a);
                   shownFacultyId := fid;
                   shownEmail := Profile.email (profile a);
                   shownCourse := Profile.course (profile a);
                   shownUserId := userId a |})
    | None => None
    end
  else Some NoContent.

(** The component's return value (lines 494-535). *)
Definition renderApp (activeTab : string) (a : App) : option Screen :=
  if loading a then Some LoadingPortal
  else
    match renderContent activeTab a with
    | Some c =>
        Some (Dashboard (Profile.name (profile a)) (Profile.course (profile a)) c)
    | None => None
    end.

(** The start-up facts every reachable state keeps. *)
Definition sessionInv (w : World) : Prop :=
  (authListener w = true -> db (app w) <> None /\ auth (app w) <> None)
  /\ (isAuthReady (app w) = true ->
      userId (app w) <> None /\ loading (app w) = false /\ db (app w) <> None).

(** What stays true once the initialisation effect has failed, at any of
    its three failure points. *)
Definition initAborted (w : World) : Prop :=
  mounted w = true /\ authListener w = false
  /\ userId (app w) = None
  /\ isAuthReady (app w) = false /\ loading (app w) = false
  /\ profile (app w) = initialProfile
  /\ profileSub w = None /\ contentSub w = None /\ pendingInit w = [].

(** What stays true, in addition, when it failed before the handles were
    stored. *)
Definition initFailed (w : World) : Prop :=
  initAborted w /\ db (app w) = None
  /\ length (console w) = 1 /\ unhandled w = [].

(** ** Properties *)

(** *** Truthiness *)

Lemma truthy_string_true s : truthy_string s = true <-> s <> "".
Proof.
  unfold truthy_string. rewrite negb_true_iff. apply String.eqb_neq.
Qed.

Lemma truthy_string_false s : truthy_string s = false <-> s = "".
Proof.
  unfold truthy_string. rewrite negb_false_iff. apply String.eqb_eq.
Qed.

Lemma truthy_Some c : c <> "" -> truthy (Some c) = true.
Proof. intros Hc. simpl. now apply truthy_string_true. Qed.

Lemma truthy_false o : truthy o = false <-> o = None \/ o = Some "".
Proof.
  destruct o as [s|]; simpl.
  - rewrite truthy_string_false. split.
    + intros ->. now right.
    + intros [Hn | Hs]; congruence.
  - split; auto.
Qed.

Lemma present_true {A : Type} (o : option A) : o <> None -> present o = true.
Proof. destruct o; simpl; congruence. Qed.

Lemma assignmentRejected_false (a : App) :
  db a <> None ->
  NewAssignment.title (newAssignment a) <> "" ->
  NewAssignment.description (newAssignment a) <> "" ->
  NewAssignment.dueDate (newAssignment a) <> "" ->
  truthy (Profile.course (profile a)) = true ->
  assignmentRejected a = false.
Proof.
  intros Hdb Ht Hd Hdue Hc. unfold assignmentRejected.
  rewrite (present_true _ Hdb), Hc.
  apply truthy_string_true in Ht, Hd, Hdue.
  now rewrite Ht, Hd, Hdue.
Qed.

Lemma scheduleRejected_false (a : App) :
  db a <> None ->
  NewSchedule.location (newSchedule a) <> "" ->
  NewSchedule.time (newSchedule a) <> "" ->
  NewSchedule.day (newSchedule a) <> "" ->
  truthy (Profile.course (profile a)) = true ->
  scheduleRejected a = false.
Proof.
  intros Hdb Hl Ht Hd Hc. unfold scheduleRejected.
  rewrite (present_true _ Hdb), Hc.
  apply truthy_string_true in Hl, Ht, Hd.
  now rewrite Hl, Ht, Hd.
Qed.

(** *** Mutation commands *)

Lemma assignmentData_returned (now due : Timestamp) (a : App) :
  Timestamp_fromDate (Date_new (NewAssignment.dueDate (newAssignment a)))
  = Returned due ->
  assignmentData now a =
    Returned
      {| AssignmentData.id := None;
         AssignmentData.title := Some (NewAssignment.title (newAssignment a));
         AssignmentData.description :=
           Some (NewAssignment.description (newAssignment a));
         AssignmentData.course := Profile.course (profile a);
         AssignmentData.dueDate := Some due;
         AssignmentData.postedBy := Profile.name (profile a);
         AssignmentData.postedAt := Some now |}.
Proof. intros Hdue. unfold assignmentData. now rewrite Hdue. Qed.

(** C1 (amended). With a database handle, a non-empty title, description
    and due date in the form, a due date that [Timestamp.fromDate] converts
    (it returns the timestamp [due]) and a non-empty course in the profile,
    a [handlePostAssignment] whose [addDoc] resolves appends exactly one
    document to the assignments collection (the other remote data is
    untouched); the document's course and poster are the profile's course
    and name, its title and description are the form's and its due date is
    [due].  Afterwards the form's title, description and due date are empty
    and its course is the profile's course. *)
Theorem postAssignment_appends_one_and_resets
    (w : World) (now due : Timestamp) (new_id : string) :
  db (app w) <> None ->
  NewAssignment.title (newAssignment (app w)) <> "" ->
  NewAssignment.description (newAssignment (app w)) <> "" ->
  NewAssignment.dueDate (newAssignment (app w)) <> "" ->
  Timestamp_fromDate (Date_new (NewAssignment.dueDate (newAssignment (app w))))
  = Returned due ->
  truthy (Profile.course (profile (app w))) = true ->
  let w' := handlePostAssignment now (Resolved new_id) w in
  exists doc : AssignmentData.t,
    assignmentsColl (remote w') = assignmentsColl (remote w) ++ [(new_id, doc)]
    /\ scheduleColl (remote w') = scheduleColl (remote w)
    /\ profiles (remote w') = profiles (remote w)
    /\ AssignmentData.course doc = Profile.course (profile (app w))
    /\ AssignmentData.postedBy doc = Profile.name (profile (app w))
    /\ AssignmentData.title doc = Some (NewAssignment.title (newAssignment (app w)))
    /\ AssignmentData.description doc
       = Some (NewAssignment.description (newAssignment (app w)))
    /\ AssignmentData.dueDate doc = Some due
    /\ AssignmentData.postedAt doc = Some now
    /\ NewAssignment.title (newAssignment (app w')) = ""
    /\ NewAssignment.description (newAssignment (app w')) = ""
    /\ NewAssignment.dueDate (newAssignment (app w')) = ""
    /\ NewAssignment.course (newAssignment (app w')) = Profile.course (profile (app w'))
    /\ profile (app w') = profile (app w)
    /\ console w' = console w /\ unhandled w' = unhandled w.
Proof.
  intros Hdb Ht Hd Hdue Hconv Hc w'. subst w'. unfold handlePostAssignment.
  rewrite (assignmentRejected_false _ Hdb Ht Hd Hdue Hc).
  rewrite (assignmentData_returned now due _ Hconv). simpl.
  eexists. repeat split.
Qed.

(** C2. When the database handle is missing, or the form's title,
    description or due date is empty, or the profile's course is absent or
    empty, [handlePostAssignment] changes nothing at all: the remote
    collections, the form, the console and the unhandled rejections are as
    before, whatever [addDoc] would have answered. *)
Theorem postAssignment_incomplete_is_noop
    (w : World) (now : Timestamp) (reply : Reply string) :
  db (app w) = None
  \/ NewAssignment.title (newAssignment (app w)) = ""
  \/ NewAssignment.description (newAssignment (app w)) = ""
  \/ NewAssignment.dueDate (newAssignment (app w)) = ""
  \/ Profile.course (profile (app w)) = None
  \/ Profile.course (profile (app w)) = Some "" ->
  handlePostAssignment now reply w = w.
Proof.
  intros Hbad. unfold handlePostAssignment.
  assert (assignmentRejected (app w) = true) as ->; [|reflexivity].
  unfold assignmentRejected.
  destruct Hbad as [H | [H | [H | [H | H]]]].
  - rewrite H. reflexivity.
  - rewrite H. simpl. now rewrite orb_true_r.
  - rewrite H. simpl. now rewrite !orb_true_r.
  - rewrite H. simpl. now rewrite !orb_true_r.
  - apply truthy_false in H. rewrite H. simpl. now rewrite !orb_true_r.
Qed.

(** C5. With a database handle, a non-empty location, time and day in the
    form and a non-empty course in the profile, a [handlePostSchedule]
    whose [addDoc] resolves appends exactly one document to the schedule
    collection; its instructor and course are the profile's name and
    course, not the form's copies, and its location, time and day are the
    form's.  Afterwards location and time are empty, day is "Monday" and
    the form's instructor and course are the profile's. *)
Theorem postSchedule_appends_one_and_resets
    (w : World) (now : Timestamp) (new_id : string) :
  db (app w) <> None ->
  NewSchedule.location (newSchedule (app w)) <> "" ->
  NewSchedule.time (newSchedule (app w)) <> "" ->
  NewSchedule.day (newSchedule (app w)) <> "" ->
  truthy (Profile.course (profile (app w))) = true ->
  let w' := handlePostSchedule now (Resolved new_id) w in
  exists doc : ScheduleData.t,
    scheduleColl (remote w') = scheduleColl (remote w) ++ [(new_id, doc)]
    /\ assignmentsColl (remote w') = assignmentsColl (remote w)
    /\ profiles (remote w') = profiles (remote w)
    /\ ScheduleData.instructor doc = Profile.name (profile (app w))
    /\ ScheduleData.course doc = Profile.course (profile (app w))
    /\ ScheduleData.location doc = Some (NewSchedule.location (newSchedule (app w)))
    /\ ScheduleData.time doc = Some (NewSchedule.time (newSchedule (app w)))
    /\ ScheduleData.day doc = Some (NewSchedule.day (newSchedule (app w)))
    /\ NewSchedule.location (newSchedule (app w')) = ""
    /\ NewSchedule.time (newSchedule (app w')) = ""
    /\ NewSchedule.day (newSchedule (app w')) = "Monday"
    /\ NewSchedule.instructor (newSchedule (app w')) = Profile.name (profile (app w'))
    /\ NewSchedule.course (newSchedule (app w')) = Profile.course (profile (app w'))
    /\ profile (app w') = profile (app w).
Proof.
  intros Hdb Hl Ht Hd Hc w'. subst w'. unfold handlePostSchedule.
  rewrite (scheduleRejected_false _ Hdb Hl Ht Hd Hc). simpl.
  exists (scheduleData now (app w)). repeat split.
Qed.

Lemma handlePostAssignment_form_changed
    (w : World) (now : Timestamp) (reply : Reply string) :
  newAssignment (app (handlePostAssignment now reply w)) <> newAssignment (app w) ->
  exists new_id, reply = Resolved new_id.
Proof.
  unfold handlePostAssignment.
  destruct (assignmentRejected (app w)); [congruence|].
  destruct (assignmentData now (app w)); [|simpl; congruence].
  destruct reply as [new_id | e]; simpl; [eauto | congruence].
Qed.

Lemma handlePostSchedule_form_changed
    (w : World) (now : Timestamp) (reply : Reply string) :
  newSchedule (app (handlePostSchedule now reply w)) <> newSchedule (app w) ->
  exists new_id, reply = Resolved new_id.
Proof.
  unfold handlePostSchedule.
  destruct (scheduleRejected (app w)); [congruence|].
  destruct reply as [new_id | e]; simpl; [eauto | congruence].
Qed.

(** C9. If the [addDoc] of either mutation command rejects, the command
    logs the error with [console.error] and leaves the whole React state,
    in particular the form, and the remote data unchanged; nothing is left
    unhandled.  [handlePostSchedule] calls [addDoc] when the form check
    passes, [handlePostAssignment] when the form check passes and the due
    date was converted.  Whatever [addDoc] is told to answer, a command
    changes its form only when that answer is a resolve. *)
Theorem post_failure_logs_and_keeps_form
    (w : World) (now : Timestamp) (e : Error) :
  let wa := handlePostAssignment now (Rejected e) w in
  let ws := handlePostSchedule now (Rejected e) w in
  (app wa = app w /\ remote wa = remote w
   /\ (assignmentRejected (app w) = false ->
       forall due : Timestamp,
         Timestamp_fromDate
           (Date_new (NewAssignment.dueDate (newAssignment (app w))))
         = Returned due ->
         unhandled wa = unhandled w
         /\ console wa =
              console w ++
                [ {| message := "Error posting assignment:"; detail := Some e |} ]))
  /\ (app ws = app w /\ remote ws = remote w /\ unhandled ws = unhandled w
      /\ console ws =
           if scheduleRejected (app w) then console w
           else console w ++ [ {| message := "Error posting schedule:"; detail := Some e |} ])
  /\ (forall reply,
        newAssignment (app (handlePostAssignment now reply w)) <> newAssignment (app w) ->
        exists new_id, reply = Resolved new_id)
  /\ (forall reply,
        newSchedule (app (handlePostSchedule now reply w)) <> newSchedule (app w) ->
        exists new_id, reply = Resolved new_id).
Proof.
  intros wa ws. subst wa ws. split; [|split; [|split]].
  - unfold handlePostAssignment.
    destruct (assignmentRejected (app w)) eqn:Hrej.
    + split; [reflexivity | split; [reflexivity | discriminate]].
    + destruct (assignmentData now (app w)) as [data | err] eqn:Hdata; simpl.
      * split; [reflexivity | split; [reflexivity | intros _ due _; split; reflexivity]].
      * split; [reflexivity | split; [reflexivity |]].
        intros _ due Hconv.
        rewrite (assignmentData_returned now due _ Hconv) in Hdata. discriminate.
  - unfold handlePostSchedule.
    destruct (scheduleRejected (app w)); repeat split.
  - intros reply. apply handlePostAssignment_form_changed.
  - intros reply. apply handlePostSchedule_form_changed.
Qed.

(** *** Profile store *)

Lemma run_effects_unchanged (w : World) : run_effects (app w) w = w.
Proof.
  unfold run_effects.
  destruct (decide (profileDeps (app w) = profileDeps (app w))) as [_ | Hn];
    [| now destruct Hn].
  destruct (decide (contentDeps (app w) = contentDeps (app w))) as [_ | Hn];
    [reflexivity | now destruct Hn].
Qed.

Lemma substring_prefix (n : nat) (s : string) :
  exists rest : string,
    s = (String.substring 0 n s ++ rest)%string
    /\ String.length (String.substring 0 n s) = Nat.min n (String.length s).
Proof.
  revert s. induction n as [|n IH]; intros s.
  - exists s. destruct s; simpl; auto.
  - destruct s as [|c s]; simpl.
    + exists "". auto.
    + destruct (IH s) as [rest [Heq Hlen]].
      exists rest. split.
      * change (String c s = String c (String.substring 0 n s ++ rest)%string).
        f_equal. exact Heq.
      * now rewrite Hlen.
Qed.

Lemma js_substring_from_0 (n : nat) (s : string) :
  js_substring 0 n s = String.substring 0 (Nat.min n (String.length s)) s.
Proof.
  unfold js_substring. simpl. now rewrite Nat.sub_0_r.
Qed.

Lemma js_substring_first (n : nat) (s : string) :
  exists rest : string,
    s = (js_substring 0 n s ++ rest)%string
    /\ String.length (js_substring 0 n s) = Nat.min n (String.length s).
Proof.
  rewrite js_substring_from_0.
  destruct (substring_prefix (Nat.min n (String.length s)) s) as [rest [Heq Hlen]].
  exists rest. split; [exact Heq | rewrite Hlen; lia].
Qed.

(** C4. [initializeProfile] whose reads and writes resolve: when the store
    has no profile document for the user id, the default profile is written
    under that id and becomes the local profile, and its [facultyId] is the
    first 8 characters of the user id (a prefix of the id, of length 8 or
    of the id's length when that is shorter); when the store has a
    document, that document becomes the local profile exactly as stored and
    the store is not written. *)
Theorem openProfile_bootstrap (w : World) (uid : string) (now : Timestamp) :
  let w' := initializeProfile uid now (Resolved tt) (Resolved tt) w in
  (profiles (remote w) !! uid = None ->
     profile (app w') = defaultProfile uid now
     /\ profiles (remote w') !! uid = Some (defaultProfile uid now)
     /\ exists short rest : string,
          Profile.facultyId (profile (app w')) = Some short
          /\ uid = (short ++ rest)%string
          /\ String.length short = Nat.min 8 (String.length uid))
  /\ (forall stored : Profile.t,
        profiles (remote w) !! uid = Some stored ->
        profile (app w') = stored /\ remote w' = remote w).
Proof.
  intros w'. subst w'. unfold initializeProfile, getDoc. split.
  - intros Hnone. rewrite Hnone. simpl. split; [reflexivity|]. split.
    + apply lookup_insert_eq.
    + destruct (js_substring_first 8 uid) as [rest [Heq Hlen]].
      exists (js_substring 0 8 uid), rest. auto.
  - intros stored Hsome. rewrite Hsome. simpl. auto.
Qed.

(** C10. A profile snapshot of a document that does not exist leaves the
    world, and so the local profile, exactly as it was, both for the
    callback alone and for the whole step of the system; the callback
    changes the local profile only when the snapshot exists. *)
Theorem profile_snapshot_of_deleted_document_keeps_profile (w : World) :
  onProfileSnapshot None w = w
  /\ profile (app (step (ProfileSnapshot None) w)) = profile (app w)
  /\ (forall docSnap : option Profile.t,
        profile (app (onProfileSnapshot docSnap w)) <> profile (app w) ->
        exists data, docSnap = Some data).
Proof.
  split; [reflexivity|]. split.
  - unfold step, handle. simpl.
    destruct (present (profileSub w)); now rewrite run_effects_unchanged.
  - intros [data|]; simpl; [eauto | congruence].
Qed.

(** C8 (the code at the failing input). When the [getDoc] of
    [initializeProfile] rejects, nothing is written to the console and the
    rejection is left unhandled; the local profile is unchanged.  The same
    happens when the document is absent and [setDoc] rejects. *)
Theorem initializeProfile_failure_is_not_logged
    (w : World) (uid : string) (now : Timestamp) (e : Error) :
  let w1 := initializeProfile uid now (Rejected e) (Resolved tt) w in
  (console w1 = console w
   /\ unhandled w1 = unhandled w ++ [e]
   /\ profile (app w1) = profile (app w))
  /\ (profiles (remote w) !! uid = None ->
      let w2 := initializeProfile uid now (Resolved tt) (Rejected e) w in
      console w2 = console w
      /\ unhandled w2 = unhandled w ++ [e]
      /\ profile (app w2) = profile (app w)).
Proof.
  intros w1. subst w1. unfold initializeProfile, getDoc. simpl. split.
  - auto.
  - intros Hnone. rewrite Hnone. simpl. auto.
Qed.

(** The part of C8 that the code does: an error of the profile listener is
    logged and changes nothing else. *)
Lemma onProfileError_logs (w : World) (e : Error) :
  let w' := onProfileError e w in
  app w' = app w /\ unhandled w' = unhandled w
  /\ console w' =
       console w ++ [ {| message := "Error listening to faculty profile:";
                         detail := Some e |} ].
Proof. simpl. auto. Qed.

(** *** Content subscriptions *)

Lemma sort_insert_Permutation {A : Type} (cmp : A -> A -> Z) (x : A) (l : list A) :
  Permutation (x :: l) (sort_insert cmp x l).
Proof.
  induction l as [|y l IH]; simpl.
  - reflexivity.
  - destruct (cmp x y <=? 0)%Z.
    + reflexivity.
    + rewrite perm_swap. now apply perm_skip.
Qed.

Lemma Array_sort_Permutation {A : Type} (cmp : A -> A -> Z) (l : list A) :
  Permutation l (Array_sort cmp l).
Proof.
  induction l as [|x l IH]; simpl.
  - reflexivity.
  - rewrite <- sort_insert_Permutation. now apply perm_skip.
Qed.

Lemma sort_insert_Forall {A : Type} (P : A -> Prop) (cmp : A -> A -> Z) (x : A) (l : list A) :
  P x -> Forall P l -> Forall P (sort_insert cmp x l).
Proof.
  intros Hx Hl. induction Hl as [|y l Hy Hl IH]; simpl.
  - constructor; [exact Hx | constructor].
  - destruct (cmp x y <=? 0)%Z; repeat constructor; assumption.
Qed.

Lemma byPostedAt_difference (a b : Assignment.t) :
  byPostedAt a b = (postedAtOrZero b - postedAtOrZero a)%Z.
Proof.
  unfold byPostedAt, js_minus, postedAtOrZero.
  destruct (Assignment.postedAt a), (Assignment.postedAt b); reflexivity.
Qed.

Lemma notEarlier_trans (a b c : Assignment.t) :
  notEarlier a b -> notEarlier b c -> notEarlier a c.
Proof. unfold notEarlier. lia. Qed.

Lemma sort_insert_sorted (x : Assignment.t) (l : list Assignment.t) :
  StronglySorted notEarlier l ->
  StronglySorted notEarlier (sort_insert byPostedAt x l).
Proof.
  intros Hs. induction Hs as [|y l Hs IH Hall]; simpl.
  - repeat constructor.
  - destruct (Z.leb_spec (byPostedAt x y) 0) as [Hle | Hgt];
      rewrite byPostedAt_difference in *.
    + constructor.
      * now constructor.
      * constructor; [unfold notEarlier; lia|].
        eapply Forall_impl; [exact Hall|].
        intros z Hz. apply (notEarlier_trans x y z); [unfold notEarlier; lia | exact Hz].
    + constructor; [exact IH|].
      apply sort_insert_Forall; [unfold notEarlier; lia | exact Hall].
Qed.

Lemma Array_sort_sorted (l : list Assignment.t) :
  StronglySorted notEarlier (Array_sort byPostedAt l).
Proof.
  induction l as [|x l IH]; simpl.
  - constructor.
  - now apply sort_insert_sorted.
Qed.

Lemma StronglySorted_lookup {A : Type} (R : A -> A -> Prop) (l : list A) :
  StronglySorted R l ->
  forall (i j : nat) (a b : A),
    i < j -> l !! i = Some a -> l !! j = Some b -> R a b.
Proof.
  intros Hs. induction Hs as [|x l Hs IH Hall]; intros i j a b Hij Ha Hb.
  - discriminate.
  - destruct j as [|j]; [lia|]. destruct i as [|i]; simpl in *.
    + injection Ha as <-. rewrite Forall_forall in Hall.
      apply Hall. eapply list_elem_of_lookup_2. exact Hb.
    + apply (IH i j); [lia | assumption | assumption].
Qed.

(** The delivered list is the projected batch, reordered so that the
    numbers read from [postedAt] descend. *)
Lemma assignmentsList_sorted_by_number
    (docs : list (string * AssignmentData.t)) :
  Permutation (map assignmentOfDoc docs) (assignmentsList docs)
  /\ StronglySorted notEarlier (assignmentsList docs).
Proof.
  unfold assignmentsList.
  split; [apply Array_sort_Permutation | apply Array_sort_sorted].
Qed.

Ltac handler_cases :=
  unfold handle, initFirebase, handleAuth, onAuthStateChanged, initializeProfile,
    getDoc, setDoc, onProfileSnapshot, onProfileError, onAssignmentsSnapshot,
    onAssignmentsError, onScheduleSnapshot, onScheduleError,
    handleAssignmentChange, handleScheduleChange, handlePostAssignment,
    handlePostSchedule, addDoc;
  repeat case_match; simpl.

Lemma profileEffect_app (w : World) : app (profileEffect w) = app w.
Proof. unfold profileEffect. repeat case_match; reflexivity. Qed.

Lemma profileEffect_contentSub (w : World) :
  contentSub (profileEffect w) = contentSub w.
Proof. unfold profileEffect. repeat case_match; reflexivity. Qed.

Lemma profileEffect_delivered (w : World) :
  delivered (profileEffect w) = delivered w.
Proof. unfold profileEffect. repeat case_match; reflexivity. Qed.

Lemma contentEffect_app (w : World) : app (contentEffect w) = app w.
Proof. unfold contentEffect. repeat case_match; reflexivity. Qed.

Lemma contentEffect_delivered (w : World) :
  delivered (contentEffect w) = delivered w.
Proof. unfold contentEffect. repeat case_match; reflexivity. Qed.

Lemma contentEffect_contentSub (w : World) :
  contentSub (contentEffect w) = contentTarget (app w).
Proof. unfold contentEffect, contentTarget. repeat case_match; reflexivity. Qed.

Lemma run_effects_app (prev : App) (w : World) : app (run_effects prev w) = app w.
Proof.
  unfold run_effects.
  repeat case_match; rewrite ?contentEffect_app, ?profileEffect_app; reflexivity.
Qed.

Lemma run_effects_delivered (prev : App) (w : World) :
  delivered (run_effects prev w) = delivered w.
Proof.
  unfold run_effects.
  repeat case_match;
    rewrite ?contentEffect_delivered, ?profileEffect_delivered; reflexivity.
Qed.

Lemma run_effects_contentSub (prev : App) (w : World) :
  contentSub (run_effects prev w) =
    if decide (contentDeps prev = contentDeps (app w))
    then contentSub w else contentTarget (app w).
Proof.
  unfold run_effects.
  destruct (decide (profileDeps prev = profileDeps (app w)));
    rewrite ?profileEffect_app;
    destruct (decide (contentDeps prev = contentDeps (app w)));
    rewrite ?contentEffect_contentSub, ?profileEffect_contentSub, ?profileEffect_app;
    reflexivity.
Qed.

Lemma contentTarget_deps (a b : App) :
  contentDeps a = contentDeps b -> contentTarget a = contentTarget b.
Proof.
  unfold contentDeps, contentTarget. intros Heq.
  injection Heq as -> -> ->. reflexivity.
Qed.

Lemma handle_contentSub (e : Event) (w : World) :
  contentSub (handle e w) = contentSub w.
Proof. destruct e; handler_cases; reflexivity. Qed.

Lemma handle_profile (e : Event) (w : World) :
  (delivered (handle e w) = delivered w
   /\ profile (app (handle e w)) = profile (app w))
  \/ delivered (handle e w) = S (delivered w).
Proof. destruct e; handler_cases; auto. Qed.

(** The content subscriptions always carry the filter the guard of the
    content effect allows in the current React state. *)
Lemma reachable_contentSub (r0 : Store) (w : World) :
  reachable r0 w -> contentSub w = contentTarget (app w).
Proof.
  induction 1 as [|e w Hw IH].
  - reflexivity.
  - unfold step. rewrite run_effects_contentSub, run_effects_app.
    destruct (decide (contentDeps (app w) = contentDeps (app (handle e w))))
      as [Hsame | _]; [|reflexivity].
    rewrite handle_contentSub, IH. now apply contentTarget_deps.
Qed.

(** Until the profile store delivers a value, the local profile is the
    placeholder of line 30. *)
Lemma reachable_placeholder (r0 : Store) (w : World) :
  reachable r0 w -> delivered w = 0 -> profile (app w) = initialProfile.
Proof.
  induction 1 as [|e w Hw IH].
  - reflexivity.
  - unfold step. rewrite run_effects_delivered, run_effects_app.
    destruct (handle_profile e w) as [[Hd Hp] | Hd]; intros H0.
    + rewrite Hp. apply IH. congruence.
    + rewrite Hd in H0. discriminate.
Qed.

Lemma contentTarget_Some (a : App) (c : string) :
  contentTarget a = Some c ->
  db a <> None /\ isAuthReady a = true
  /\ Profile.course (profile a) = Some c /\ c <> "".
Proof.
  unfold contentTarget.
  destruct (db a) as [d|]; simpl; [|discriminate].
  destruct (isAuthReady a); simpl; [|discriminate].
  destruct (truthy (Profile.course (profile a))) eqn:Ht; simpl; [|discriminate].
  intros Hc. rewrite Hc in Ht. simpl in Ht. apply truthy_string_true in Ht.
  auto.
Qed.

(** C6 (amended). In every reachable state in which the content
    subscriptions are open with filter [c], the database handle is set, the
    session is ready, and [c] is the non-empty course of the local profile;
    as long as the profile store has delivered no value, that profile is the
    initial placeholder and [c] is its course "CS101". *)
Theorem content_subscriptions_follow_local_profile
    (r0 : Store) (w : World) (c : string) :
  reachable r0 w ->
  contentSub w = Some c ->
  db (app w) <> None
  /\ isAuthReady (app w) = true
  /\ Profile.course (profile (app w)) = Some c
  /\ c <> ""
  /\ (delivered w = 0 -> profile (app w) = initialProfile /\ c = "CS101").
Proof.
  intros Hreach Hsub.
  rewrite (reachable_contentSub r0 w Hreach) in Hsub.
  destruct (contentTarget_Some _ _ Hsub) as (Hdb & Hready & Hcourse & Hne).
  repeat split; try assumption.
  - now apply (reachable_placeholder r0).
  - rewrite (reachable_placeholder r0 w Hreach H) in Hcourse.
    simpl in Hcourse. congruence.
Qed.

Lemma profileEffect_userId (w : World) :
  userId (app (profileEffect w)) = userId (app w).
Proof. now rewrite profileEffect_app. Qed.

Lemma handle_userId (e : Event) (w : World) :
  (forall user uuid, e <> AuthStateChanged user uuid) ->
  userId (app (handle e w)) = userId (app w).
Proof.
  intros Hne. destruct e; try (handler_cases; reflexivity).
  now destruct (Hne user uuid).
Qed.

(** C7 (amended). The session's identity id is written only by the
    auth-state callback: every step of any other event leaves it unchanged,
    and every auth-state notification received while the listener is
    registered overwrites it, with the provider's uid when a user is
    present and with the freshly generated id otherwise. *)
Theorem identity_written_only_by_auth_callback (w : World) :
  (forall e : Event,
      (forall user uuid, e <> AuthStateChanged user uuid) ->
      userId (app (step e w)) = userId (app w))
  /\ (forall (user : option string) (uuid : string),
        authListener w = true ->
        userId (app (step (AuthStateChanged user uuid) w))
        = Some (match user with Some uid => uid | None => uuid end)).
Proof.
  split.
  - intros e Hne. unfold step. rewrite run_effects_app.
    now apply handle_userId.
  - intros user uuid Hl. unfold step. rewrite run_effects_app.
    simpl. rewrite Hl. now destruct user.
Qed.

(** ** Further properties of the component *)

(** *** Delivered lists *)

Lemma scheduleEntryOfDoc_time_nonempty (d : string * ScheduleData.t) :
  ScheduleEntry.time (scheduleEntryOfDoc d) <> "".
Proof.
  unfold scheduleEntryOfDoc. simpl.
  destruct (ScheduleData.time (snd d)) as [s|]; [|discriminate].
  destruct (truthy_string s) eqn:Hs; [|discriminate].
  now apply truthy_string_true.
Qed.

Lemma lookup_map {A B : Type} (f : A -> B) (l : list A) (i : nat) :
  map f l !! i = option_map f (l !! i).
Proof.
  revert i. induction l as [|x l IH]; intros [|i]; simpl; auto.
Qed.

(** X1. The schedule listener delivers one entry per document, in the
    order of the snapshot, with the document's course, location, day and
    instructor.  An entry carries the document's id unless the document
    stores a field named "id", whose value then takes its place.  No
    delivered entry has an empty time: a stored non-empty time is kept and a
    missing or empty one is shown as "N/A". *)
Theorem schedule_delivered_in_order_with_time_filled
    (docs : list (string * ScheduleData.t)) (w : World) :
  let l := schedule (app (onScheduleSnapshot docs w)) in
  length l = length docs
  /\ Forall (fun e => ScheduleEntry.time e <> "") l
  /\ (forall (i : nat) (d : string * ScheduleData.t),
        docs !! i = Some d ->
        exists e, l !! i = Some e
          /\ (ScheduleData.id (snd d) = None -> ScheduleEntry.id e = fst d)
          /\ (forall stored, ScheduleData.id (snd d) = Some stored ->
                ScheduleEntry.id e = stored)
          /\ ScheduleEntry.course e = ScheduleData.course (snd d)
          /\ ScheduleEntry.location e = ScheduleData.location (snd d)
          /\ ScheduleEntry.day e = ScheduleData.day (snd d)
          /\ ScheduleEntry.instructor e = ScheduleData.instructor (snd d)
          /\ (forall s, ScheduleData.time (snd d) = Some s -> s <> "" ->
                ScheduleEntry.time e = s)
          /\ (ScheduleData.time (snd d) = None \/ ScheduleData.time (snd d) = Some "" ->
                ScheduleEntry.time e = "N/A")).
Proof.
  intros l. subst l. simpl. split; [|split].
  - apply length_map.
  - apply Forall_forall. intros e He.
    apply list_elem_of_In, in_map_iff in He. destruct He as [d [<- _]].
    apply scheduleEntryOfDoc_time_nonempty.
  - intros i d Hd. exists (scheduleEntryOfDoc d). rewrite lookup_map, Hd.
    split; [reflexivity|]. unfold scheduleEntryOfDoc. simpl.
    split; [intros ->; reflexivity|].
    split; [intros stored ->; reflexivity|].
    do 4 (split; [reflexivity|]). split.
    + intros s Hs Hne. rewrite Hs.
      apply truthy_string_true in Hne. now rewrite Hne.
    + intros [Hn | He].
      * now rewrite Hn.
      * rewrite He. reflexivity.
Qed.

Lemma sort_insert_filter_postedAt (k : Z) (x : Assignment.t) (l : list Assignment.t) :
  List.filter (postedAtIs k) (sort_insert byPostedAt x l)
  = List.filter (postedAtIs k) (x :: l).
Proof.
  induction l as [|y l IH]; [reflexivity|].
  cbn [sort_insert].
  destruct (Z.leb_spec (byPostedAt x y) 0) as [Hle | Hgt]; [reflexivity|].
  rewrite byPostedAt_difference in Hgt.
  cbn [List.filter] in *. rewrite IH. unfold postedAtIs.
  destruct (Z.eqb_spec (postedAtOrZero x) k) as [Hx | Hx];
    destruct (Z.eqb_spec (postedAtOrZero y) k) as [Hy | Hy];
    try reflexivity.
  lia.
Qed.

(** X2. The sort of the assignments listener is stable: the records that
    share one [postedAt] number (in particular those without [postedAt])
    are delivered in the order the snapshot had them. *)
Theorem assignments_with_equal_postedAt_keep_snapshot_order
    (docs : list (string * AssignmentData.t)) (k : Z) :
  List.filter (postedAtIs k) (assignmentsList docs)
  = List.filter (postedAtIs k) (map assignmentOfDoc docs).
Proof.
  unfold assignmentsList.
  induction (map assignmentOfDoc docs) as [|x l IH]; [reflexivity|].
  cbn [Array_sort]. rewrite sort_insert_filter_postedAt.
  cbn [List.filter]. now rewrite IH.
Qed.

(** X3. A snapshot whose documents already come in descending order of
    [postedAt] (missing counted as 0) is delivered in exactly that order. *)
Theorem assignments_in_descending_order_are_delivered_as_received
    (docs : list (string * AssignmentData.t)) :
  StronglySorted notEarlier (map assignmentOfDoc docs) ->
  assignmentsList docs = map assignmentOfDoc docs.
Proof.
  unfold assignmentsList.
  induction 1 as [|x l Hs IH Hall]; [reflexivity|].
  cbn [Array_sort]. rewrite IH.
  destruct l as [|y l]; [reflexivity|].
  cbn [sort_insert].
  inversion Hall as [|? ? Hxy _]; subst.
  unfold notEarlier in Hxy.
  destruct (Z.leb_spec (byPostedAt x y) 0) as [Hle | Hgt]; [reflexivity|].
  rewrite byPostedAt_difference in Hgt. lia.
Qed.

(** *** Invariants of the session *)

Lemma profileEffect_profileSub (w : World) :
  profileSub (profileEffect w) = profileTarget (app w).
Proof.
  unfold profileEffect, profileTarget.
  destruct (negb (present (db (app w))) || negb (truthy (userId (app w)))
            || negb (isAuthReady (app w))); [reflexivity|].
  destruct (userId (app w)); reflexivity.
Qed.

Lemma contentEffect_profileSub (w : World) :
  profileSub (contentEffect w) = profileSub w.
Proof. unfold contentEffect. repeat case_match; reflexivity. Qed.

Lemma run_effects_profileSub (prev : App) (w : World) :
  profileSub (run_effects prev w) =
    if decide (profileDeps prev = profileDeps (app w))
    then profileSub w else profileTarget (app w).
Proof.
  unfold run_effects.
  destruct (decide (profileDeps prev = profileDeps (app w)));
    match goal with |- context [decide ?P] => destruct (decide P) end;
    rewrite ?contentEffect_profileSub, ?profileEffect_profileSub; reflexivity.
Qed.

Lemma profileTarget_deps (a b : App) :
  profileDeps a = profileDeps b -> profileTarget a = profileTarget b.
Proof.
  unfold profileDeps, profileTarget. intros Heq.
  injection Heq as -> -> ->. reflexivity.
Qed.

Lemma handle_profileSub (e : Event) (w : World) :
  profileSub (handle e w) = profileSub w.
Proof. destruct e; handler_cases; reflexivity. Qed.

Lemma reachable_profileSub (r0 : Store) (w : World) :
  reachable r0 w -> profileSub w = profileTarget (app w).
Proof.
  induction 1 as [|e w Hw IH].
  - reflexivity.
  - unfold step. rewrite run_effects_profileSub, run_effects_app.
    destruct (decide (profileDeps (app w) = profileDeps (app (handle e w))))
      as [Hsame | _]; [|reflexivity].
    rewrite handle_profileSub, IH. now apply profileTarget_deps.
Qed.

Lemma profileTarget_Some (a : App) (uid : string) :
  profileTarget a = Some uid ->
  db a <> None /\ isAuthReady a = true /\ userId a = Some uid /\ uid <> "".
Proof.
  unfold profileTarget.
  destruct (db a) as [d|]; simpl; [|discriminate].
  destruct (truthy (userId a)) eqn:Ht; simpl; [|discriminate].
  destruct (isAuthReady a); simpl; [|discriminate].
  intros Hu. rewrite Hu in Ht. simpl in Ht. apply truthy_string_true in Ht.
  auto.
Qed.

(** X7. In every reachable state the profile listener, when registered,
    watches the document of the current user id, which is non-empty, with
    the database handle set and the session ready; and whenever those three
    conditions hold it is registered. *)
Theorem profile_listener_follows_identity (r0 : Store) (w : World) :
  reachable r0 w ->
  (forall uid : string,
      profileSub w = Some uid ->
      userId (app w) = Some uid /\ uid <> ""
      /\ db (app w) <> None /\ isAuthReady (app w) = true)
  /\ (forall uid : string,
        db (app w) <> None -> isAuthReady (app w) = true ->
        userId (app w) = Some uid -> uid <> "" ->
        profileSub w = Some uid).
Proof.
  intros Hreach. rewrite (reachable_profileSub r0 w Hreach). split.
  - intros uid Hsub.
    destruct (profileTarget_Some _ _ Hsub) as (Hdb & Hready & Hu & Hne). auto.
  - intros uid Hdb Hready Hu Hne. unfold profileTarget.
    rewrite (present_true _ Hdb), Hready, Hu. simpl.
    apply truthy_string_true in Hne. now rewrite Hne.
Qed.

Lemma run_effects_authListener (prev : App) (w : World) :
  authListener (run_effects prev w) = authListener w.
Proof.
  unfold run_effects, profileEffect, contentEffect.
  repeat case_match; reflexivity.
Qed.

Lemma handle_sessionInv (e : Event) (w : World) :
  sessionInv w -> sessionInv (handle e w).
Proof.
  intros [Hl Hr]. unfold sessionInv.
  destruct e; handler_cases; split; intros Hgoal;
    try (apply Hl; assumption); try (apply Hr; assumption);
    try discriminate;
    try (destruct (Hl ltac:(assumption)) as [Hdb Hauth]);
    repeat split; try assumption; try discriminate;
    try (now destruct (Hr ltac:(assumption)) as (? & ? & ?));
    try (now destruct (Hl ltac:(assumption)) as (? & ?));
    try (now destruct (Hl eq_refl) as (? & ?));
    congruence.
Qed.

Lemma reachable_sessionInv (r0 : Store) (w : World) :
  reachable r0 w -> sessionInv w.
Proof.
  induction 1 as [|e w Hw IH].
  - split; simpl; intros H; discriminate.
  - pose proof (handle_sessionInv e w IH) as [Hl Hr].
    unfold sessionInv, step.
    rewrite run_effects_authListener, run_effects_app. auto.
Qed.

(** X5. In every reachable state in which the session is ready, a user id
    is recorded, the loading flag is off and the database handle is set. *)
Theorem ready_session_has_identity (r0 : Store) (w : World) :
  reachable r0 w ->
  isAuthReady (app w) = true ->
  userId (app w) <> None /\ loading (app w) = false /\ db (app w) <> None.
Proof.
  intros Hreach Hready.
  destruct (reachable_sessionInv r0 w Hreach) as [_ Hr]. auto.
Qed.

Lemma handle_keeps_ready (e : Event) (w : World) :
  (db (app w) <> None -> db (app (handle e w)) <> None)
  /\ (isAuthReady (app w) = true -> isAuthReady (app (handle e w)) = true)
  /\ (userId (app w) <> None -> userId (app (handle e w)) <> None)
  /\ (loading (app w) = false -> loading (app (handle e w)) = false).
Proof.
  destruct e; handler_cases; repeat split; auto; discriminate.
Qed.

Lemma run_app (es : list Event) (w : World) (P : App -> Prop) :
  (forall e w', P (app w') -> P (app (step e w'))) ->
  P (app w) -> P (app (run es w)).
Proof.
  intros Hstep. revert w. induction es as [|e es IH]; intros w Hw; simpl.
  - exact Hw.
  - apply IH. now apply Hstep.
Qed.

(** X6. No sequence of events takes back what the start-up has set: a
    database handle, a ready session, a recorded user id and a cleared
    loading flag all persist through every run. *)
Theorem startup_state_is_never_taken_back (es : list Event) (w : World) :
  (db (app w) <> None -> db (app (run es w)) <> None)
  /\ (isAuthReady (app w) = true -> isAuthReady (app (run es w)) = true)
  /\ (userId (app w) <> None -> userId (app (run es w)) <> None)
  /\ (loading (app w) = false -> loading (app (run es w)) = false).
Proof.
  assert (forall P : App -> Prop,
             (forall e w', P (app w') -> P (app (handle e w'))) ->
             P (app w) -> P (app (run es w))) as Hrun.
  { intros P Hh. apply run_app. intros e w' Hw'. unfold step.
    rewrite run_effects_app. now apply Hh. }
  split; [|split; [|split]].
  - apply (Hrun (fun a => db a <> None)). intros e w'. apply handle_keeps_ready.
  - apply (Hrun (fun a => isAuthReady a = true)). intros e w'.
    apply handle_keeps_ready.
  - apply (Hrun (fun a => userId a <> None)). intros e w'.
    apply handle_keeps_ready.
  - apply (Hrun (fun a => loading a = false)). intros e w'.
    apply handle_keeps_ready.
Qed.

(** X17. In a reachable state rendering never throws, whatever tab is
    selected: the profile page calls [userId.substring] only when the
    session is ready, and then a user id is recorded. *)
Theorem rendering_never_throws (r0 : Store) (w : World) (activeTab : string) :
  reachable r0 w ->
  exists screen : Screen, renderApp activeTab (app w) = Some screen.
Proof.
  intros Hreach. unfold renderApp.
  destruct (loading (app w)); [eauto|].
  unfold renderContent.
  destruct (isAuthReady (app w)) eqn:Hready; simpl; [|eauto].
  destruct (String.eqb activeTab "assignments"); [eauto|].
  destruct (String.eqb activeTab "schedule"); [eauto|].
  destruct (String.eqb activeTab "profile"); [|eauto].
  destruct (reachable_sessionInv r0 w Hreach) as [_ Hinv].
  destruct (Hinv Hready) as (Hu & _ & _).
  unfold facultyIdShown.
  destruct (truthy (Profile.facultyId (profile (app w)))); [eauto|].
  destruct (userId (app w)); [eauto | congruence].
Qed.

Lemma run_effects_same_deps (prev : App) (w : World) :
  profileDeps prev = profileDeps (app w) ->
  contentDeps prev = contentDeps (app w) ->
  run_effects prev w = w.
Proof.
  intros Hp Hc. unfold run_effects.
  rewrite (decide_True _ _ Hp). now rewrite (decide_True _ _ Hc).
Qed.

Lemma handle_initAborted (e : Event) (w : World) :
  initAborted w ->
  initAborted (handle e w) /\ db (app (handle e w)) = db (app w).
Proof.
  intros (Hm & Hal & Hu & Hr & Hlo & Hp & Hps & Hcs & Hpi).
  unfold initAborted.
  destruct e; unfold handle;
    rewrite ?Hm, ?Hal, ?Hps, ?Hcs, ?Hpi; simpl;
    try (repeat split; assumption).
  - unfold handlePostAssignment. repeat case_match; simpl; repeat split; assumption.
  - unfold handlePostSchedule. repeat case_match; simpl; repeat split; assumption.
Qed.

Lemma step_initAborted (e : Event) (w : World) :
  initAborted w ->
  initAborted (step e w) /\ step e w = handle e w.
Proof.
  intros Hw. destruct (handle_initAborted e w Hw) as [Hw' Hdb].
  assert (run_effects (app w) (handle e w) = handle e w) as Hsame.
  { destruct Hw as (_ & _ & Hu & Hr & _ & Hp & _).
    destruct Hw' as (_ & _ & Hu' & Hr' & _ & Hp' & _).
    apply run_effects_same_deps.
    - unfold profileDeps. congruence.
    - unfold contentDeps. congruence. }
  unfold step. rewrite Hsame. auto.
Qed.

Lemma handle_initFailed (e : Event) (w : World) :
  initFailed w ->
  initFailed (handle e w) /\ remote (handle e w) = remote w.
Proof.
  intros (Ha & Hdb & Hc & Hun).
  destruct (handle_initAborted e w Ha) as [Ha' Hdb'].
  destruct Ha as (Hm & Hal & Hu & Hr & Hlo & Hp & Hps & Hcs & Hpi).
  unfold initFailed. rewrite Hdb', Hdb.
  assert (console (handle e w) = console w /\ unhandled (handle e w) = unhandled w
          /\ remote (handle e w) = remote w) as (Hc' & Hun' & Hrem).
  { destruct e; unfold handle;
      rewrite ?Hm, ?Hal, ?Hps, ?Hcs, ?Hpi; simpl; auto.
    - unfold handlePostAssignment, assignmentRejected. rewrite Hdb. simpl. auto.
    - unfold handlePostSchedule, scheduleRejected. rewrite Hdb. simpl. auto. }
  rewrite Hc', Hun'. auto.
Qed.

Lemma run_initAborted (es : list Event) (w : World) :
  initAborted w -> initAborted (run es w).
Proof.
  revert w. induction es as [|e es IH]; intros w Hw; simpl; [exact Hw|].
  apply IH. now apply step_initAborted.
Qed.

Lemma run_initFailed (es : list Event) (w : World) :
  initFailed w ->
  initFailed (run es w) /\ remote (run es w) = remote w.
Proof.
  revert w. induction es as [|e es IH]; intros w Hw; simpl; [auto|].
  destruct (step_initAborted e w (proj1 Hw)) as [_ Hstep].
  destruct (handle_initFailed e w Hw) as [Hw' Hrem].
  rewrite Hstep. destruct (IH _ Hw') as [Hfin Hrem'].
  split; [exact Hfin | congruence].
Qed.

(** X4. When the initialisation effect fails (no configuration, or a throw
    anywhere in its [try]), nothing that happens afterwards brings the
    session to life: after any sequence of events no user id is recorded,
    the session is not ready, no listener and no subscription is open, and
    every tab shows the "preparing" notice under the placeholder profile.
    When it failed before the handles were stored (no configuration, or a
    throw of [initializeApp], [getFirestore] or [getAuth]) there is moreover
    no database handle, the remote store is what it was, and the error
    logged at start-up is the only console entry. *)
Theorem failed_initialisation_is_final
    (r0 : Store) (o : InitOutcome) (es : list Event) :
  o <> InitOk ->
  let w := run es (step (Mount o) (initialWorld r0)) in
  (userId (app w) = None /\ isAuthReady (app w) = false
   /\ authListener w = false /\ profileSub w = None /\ contentSub w = None
   /\ forall activeTab : string,
        renderApp activeTab (app w)
        = Some (Dashboard (Some "RBC Faculty") (Some "CS101") PreparingDashboard))
  /\ ((forall e, o <> ListenThrows e) ->
      db (app w) = None /\ remote w = r0
      /\ length (console w) = 1 /\ unhandled w = []).
Proof.
  intros Ho w. split.
  - assert (initAborted (step (Mount o) (initialWorld r0))) as H0.
    { destruct o; [| | |now destruct Ho]; repeat split. }
    pose proof (run_initAborted es _ H0) as Hfin. fold w in Hfin.
    destruct Hfin as (Hm & Hal & Hu & Hr & Hlo & Hp & Hps & Hcs & Hpi).
    repeat split; try assumption.
    intros activeTab. unfold renderApp, renderContent.
    rewrite Hlo, Hr, Hp. reflexivity.
  - intros Hearly.
    assert (initFailed (step (Mount o) (initialWorld r0))
            /\ remote (step (Mount o) (initialWorld r0)) = r0) as [H0 Hr0].
    { destruct o as [| e | e |]; [| | now destruct (Hearly e) | now destruct Ho];
        (split; [repeat split|]); reflexivity. }
    destruct (run_initFailed es _ H0) as [Hfin Hrem]. fold w in Hfin, Hrem.
    destruct Hfin as (_ & Hdb & Hc & Hun).
    repeat split; try assumption. congruence.
Qed.

(** *** The remote store *)

Lemma run_effects_remote (prev : App) (w : World) :
  remote (run_effects prev w) = remote w.
Proof.
  unfold run_effects, profileEffect, contentEffect.
  repeat case_match; reflexivity.
Qed.

Lemma handle_collections_grow (e : Event) (w : World) :
  assignmentsColl (remote w) `prefix_of` assignmentsColl (remote (handle e w))
  /\ scheduleColl (remote w) `prefix_of` scheduleColl (remote (handle e w)).
Proof.
  destruct e; handler_cases; simplify_eq/=; split;
    solve [reflexivity | now apply prefix_app_r].
Qed.

(** X8. The component never deletes or rewrites a document of the two
    shared collections: through any sequence of events the assignments and
    the schedule collection keep every document they hold, in place, and
    only grow at the end.  (Profile documents are left out: the profile
    set-up writes them.) *)
Theorem remote_data_is_only_added_to (es : list Event) (w : World) :
  assignmentsColl (remote w) `prefix_of` assignmentsColl (remote (run es w))
  /\ scheduleColl (remote w) `prefix_of` scheduleColl (remote (run es w)).
Proof.
  revert w. induction es as [|e es IH]; intros w; simpl.
  - split; reflexivity.
  - destruct (IH (step e w)) as (Ha & Hs).
    destruct (handle_collections_grow e w) as [Ha0 Hs0].
    unfold step in *. rewrite run_effects_remote in *.
    split.
    + now transitivity (assignmentsColl (remote (handle e w))).
    + now transitivity (scheduleColl (remote (handle e w))).
Qed.

Lemma step_PostAssignment (now : Timestamp) (reply : Reply string) (w : World) :
  step (PostAssignment now reply) w = handlePostAssignment now reply w.
Proof.
  unfold step. apply run_effects_same_deps; simpl;
    unfold handlePostAssignment; repeat case_match; reflexivity.
Qed.

Lemma step_PostSchedule (now : Timestamp) (reply : Reply string) (w : World) :
  step (PostSchedule now reply) w = handlePostSchedule now reply w.
Proof.
  unfold step. apply run_effects_same_deps; simpl;
    unfold handlePostSchedule; repeat case_match; reflexivity.
Qed.

Lemma step_AssignmentChange (f : AssignmentField) (v : string) (w : World) :
  step (AssignmentChange f v) w = handleAssignmentChange f v w.
Proof. unfold step. now apply run_effects_same_deps. Qed.

Lemma step_ScheduleChange (f : ScheduleField) (v : string) (w : World) :
  step (ScheduleChange f v) w = handleScheduleChange f v w.
Proof. unfold step. now apply run_effects_same_deps. Qed.

Lemma ready_contentTarget (a : App) :
  isAuthReady a = true -> db a <> None ->
  truthy (Profile.course (profile a)) = true ->
  contentTarget a = Profile.course (profile a).
Proof.
  intros Hr Hdb Hc. unfold contentTarget.
  now rewrite (present_true _ Hdb), Hr, Hc.
Qed.

Lemma assignmentRejected_false_inv (a : App) :
  assignmentRejected a = false ->
  db a <> None /\ truthy (Profile.course (profile a)) = true.
Proof.
  unfold assignmentRejected. intros H.
  repeat (apply orb_false_elim in H; destruct H as [H ?]).
  split.
  - destruct (db a); [discriminate | discriminate].
  - now apply negb_false_iff.
Qed.

Lemma scheduleRejected_false_inv (a : App) :
  scheduleRejected a = false ->
  db a <> None /\ truthy (Profile.course (profile a)) = true.
Proof.
  unfold scheduleRejected. intros H.
  repeat (apply orb_false_elim in H; destruct H as [H ?]).
  split.
  - destruct (db a); [discriminate | discriminate].
  - now apply negb_false_iff.
Qed.

Lemma assignmentData_fields (now : Timestamp) (a : App) (data : AssignmentData.t) :
  assignmentData now a = Returned data ->
  AssignmentData.course data = Profile.course (profile a)
  /\ AssignmentData.postedBy data = Profile.name (profile a)
  /\ AssignmentData.postedAt data = Some now.
Proof.
  unfold assignmentData.
  destruct (Timestamp_fromDate _); [|discriminate].
  intros Heq. injection Heq as <-. auto.
Qed.

(** X9. In a reachable state with a ready session, whatever [addDoc] is
    told to answer, a submission either leaves its collection as it was or
    appends one document filed under exactly the course that filters the
    open content subscriptions, which stay open with that filter; this
    holds for assignments and for schedule entries. *)
Theorem accepted_post_is_filed_under_the_subscribed_course
    (r0 : Store) (w : World) (now : Timestamp) (reply : Reply string) :
  reachable r0 w ->
  isAuthReady (app w) = true ->
  (let w' := step (PostAssignment now reply) w in
   assignmentsColl (remote w') = assignmentsColl (remote w)
   \/ exists (new_id c : string) (doc : AssignmentData.t),
        reply = Resolved new_id
        /\ contentSub w = Some c /\ contentSub w' = Some c
        /\ assignmentsColl (remote w') = assignmentsColl (remote w) ++ [(new_id, doc)]
        /\ AssignmentData.course doc = Some c)
  /\ (let w' := step (PostSchedule now reply) w in
      scheduleColl (remote w') = scheduleColl (remote w)
      \/ exists (new_id c : string) (doc : ScheduleData.t),
           reply = Resolved new_id
           /\ contentSub w = Some c /\ contentSub w' = Some c
           /\ scheduleColl (remote w') = scheduleColl (remote w) ++ [(new_id, doc)]
           /\ ScheduleData.course doc = Some c).
Proof.
  intros Hreach Hready. split; intros w'.
  - pose proof (reachable_contentSub r0 _ (reachable_step r0
                  (PostAssignment now reply) w Hreach)) as Hsub'.
    fold w' in Hsub'. subst w'. rewrite step_PostAssignment in *.
    unfold handlePostAssignment in *.
    destruct (assignmentRejected (app w)) eqn:Hok; [now left|].
    destruct (assignmentData now (app w)) as [data | err] eqn:Hdata; [|now left].
    destruct reply as [new_id | err]; [|now left]. right. simpl in *.
    destruct (assignmentRejected_false_inv _ Hok) as [Hdb Hc].
    destruct (assignmentData_fields now _ data Hdata) as (Hcourse & _ & _).
    destruct (Profile.course (profile (app w))) as [c|] eqn:Hpc; [|discriminate].
    assert (contentTarget (app w) = Some c) as Htarget.
    { rewrite ready_contentTarget by (assumption || now rewrite Hpc). exact Hpc. }
    exists new_id, c, data. repeat split; try assumption.
    + now rewrite (reachable_contentSub r0 w Hreach).
    + rewrite Hsub'. exact Htarget.
  - pose proof (reachable_contentSub r0 _ (reachable_step r0
                  (PostSchedule now reply) w Hreach)) as Hsub'.
    fold w' in Hsub'. subst w'. rewrite step_PostSchedule in *.
    unfold handlePostSchedule in *.
    destruct (scheduleRejected (app w)) eqn:Hok; [now left|].
    destruct reply as [new_id | err]; [|now left]. right. simpl in *.
    destruct (scheduleRejected_false_inv _ Hok) as [Hdb Hc].
    destruct (Profile.course (profile (app w))) as [c|] eqn:Hpc; [|discriminate].
    assert (contentTarget (app w) = Some c) as Htarget.
    { rewrite ready_contentTarget by (assumption || now rewrite Hpc). exact Hpc. }
    exists new_id, c, (scheduleData now (app w)). repeat split.
    + now rewrite (reachable_contentSub r0 w Hreach).
    + rewrite Hsub'. exact Htarget.
    + simpl. exact Hpc.
Qed.

(** *** The forms *)

(** X10. Submitting again right after a submission that wrote its
    document does nothing, whatever the second [addDoc] would answer: the
    form was cleared, so the form check stops the handler and no second
    document is written.  For the schedule form this holds after every
    submission whose [addDoc] resolved. *)
Theorem resubmitting_a_cleared_form_does_nothing
    (w : World) (now now' : Timestamp) (new_id : string) (reply' : Reply string) :
  (let w1 := handlePostAssignment now (Resolved new_id) w in
   assignmentsColl (remote w1) <> assignmentsColl (remote w) ->
   handlePostAssignment now' reply' w1 = w1)
  /\ (let w1 := handlePostSchedule now (Resolved new_id) w in
      handlePostSchedule now' reply' w1 = w1).
Proof.
  split; intros w1; subst w1.
  - unfold handlePostAssignment at 1 3 4.
    destruct (assignmentRejected (app w)) eqn:Hrej; [congruence|].
    destruct (assignmentData now (app w)) as [data | err]; [|simpl; congruence].
    simpl. intros _. unfold handlePostAssignment, assignmentRejected. simpl.
    destruct (present (db (app w))); reflexivity.
  - unfold handlePostSchedule at 2 3.
    destruct (scheduleRejected (app w)) eqn:Hrej.
    + unfold handlePostSchedule. now rewrite Hrej.
    + simpl. unfold handlePostSchedule, scheduleRejected. simpl.
      destruct (present (db (app w))); reflexivity.
Qed.

(** X11. A submission whose [addDoc] rejected leaves the React state and
    the remote data as if it had not been made: a following submission
    whose [addDoc] resolves gives exactly the React state and the remote
    data that a first submission at that moment would have given.  This
    holds for both forms; for the schedule form nothing is left unhandled
    either. *)
Theorem retry_after_failure_posts_the_same_document
    (w : World) (now now' : Timestamp) (e : Error) (new_id : string) :
  (let retried :=
     handlePostAssignment now (Resolved new_id)
       (handlePostAssignment now' (Rejected e) w) in
   let direct := handlePostAssignment now (Resolved new_id) w in
   app retried = app direct /\ remote retried = remote direct)
  /\ (let retried :=
        handlePostSchedule now (Resolved new_id)
          (handlePostSchedule now' (Rejected e) w) in
      let direct := handlePostSchedule now (Resolved new_id) w in
      app retried = app direct /\ remote retried = remote direct
      /\ unhandled retried = unhandled direct).
Proof.
  split; intros retried direct; subst retried direct.
  - assert (forall w0 : World,
               app w0 = app w -> remote w0 = remote w ->
               app (handlePostAssignment now (Resolved new_id) w0)
               = app (handlePostAssignment now (Resolved new_id) w)
               /\ remote (handlePostAssignment now (Resolved new_id) w0)
                  = remote (handlePostAssignment now (Resolved new_id) w)) as Hsame.
    { intros w0 Ha Hr. unfold handlePostAssignment. rewrite Ha.
      destruct (assignmentRejected (app w)); [auto|].
      destruct (assignmentData now (app w)); simpl; [|auto].
      rewrite Ha, Hr. auto. }
    apply Hsame; unfold handlePostAssignment;
      destruct (assignmentRejected (app w)); try reflexivity;
      destruct (assignmentData now' (app w)); reflexivity.
  - unfold handlePostSchedule.
    destruct (scheduleRejected (app w)) eqn:Hrej; simpl; rewrite Hrej;
      simpl; auto.
Qed.

(** X12. Typing a non-empty title, description and due date into the
    assignment form and submitting, with a database handle, a non-empty
    profile course, a due date that [Timestamp.fromDate] converts to [due]
    and a resolving [addDoc], appends exactly the document made of the typed
    title and description, [due], the profile's course and name and the
    current time, and leaves the form cleared. *)
Theorem typed_assignment_is_posted
    (w : World) (t d u : string) (now due : Timestamp) (new_id : string) :
  db (app w) <> None ->
  truthy (Profile.course (profile (app w))) = true ->
  t <> "" -> d <> "" -> u <> "" ->
  Timestamp_fromDate (Date_new u) = Returned due ->
  let w' :=
    run [ AssignmentChange F_title t; AssignmentChange F_description d;
          AssignmentChange F_dueDate u; PostAssignment now (Resolved new_id) ] w in
  assignmentsColl (remote w') =
    assignmentsColl (remote w) ++
      [ (new_id,
         {| AssignmentData.id := None;
            AssignmentData.title := Some t;
            AssignmentData.description := Some d;
            AssignmentData.course := Profile.course (profile (app w));
            AssignmentData.dueDate := Some due;
            AssignmentData.postedBy := Profile.name (profile (app w));
            AssignmentData.postedAt := Some now |}) ]
  /\ newAssignment (app w') =
       {| NewAssignment.title := ""; NewAssignment.description := "";
          NewAssignment.dueDate := "";
          NewAssignment.course := Profile.course (profile (app w)) |}.
Proof.
  intros Hdb Hc Ht Hd Hu Hconv w'. subst w'. unfold run. simpl.
  rewrite !step_AssignmentChange, step_PostAssignment.
  unfold handlePostAssignment.
  rewrite assignmentRejected_false; try assumption.
  rewrite (assignmentData_returned now due) by exact Hconv.
  simpl. split; reflexivity.
Qed.

(** X13. The schedule form's day goes back to "Monday" after every
    accepted submission: whatever day the first entry had, typing only a
    location and a time and submitting again appends a second entry for
    "Monday". *)
Theorem second_schedule_entry_defaults_to_monday
    (w : World) (l t : string) (now1 now2 : Timestamp) (id1 id2 : string) :
  scheduleRejected (app w) = false ->
  l <> "" -> t <> "" ->
  let w' :=
    run [ PostSchedule now1 (Resolved id1);
          ScheduleChange F_location l; ScheduleChange F_time t;
          PostSchedule now2 (Resolved id2) ] w in
  scheduleColl (remote w') =
    scheduleColl (remote w) ++
      [ (id1, scheduleData now1 (app w));
        (id2,
         {| ScheduleData.id := None;
            ScheduleData.course := Profile.course (profile (app w));
            ScheduleData.location := Some l;
            ScheduleData.time := Some t;
            ScheduleData.day := Some "Monday";
            ScheduleData.instructor := Profile.name (profile (app w));
            ScheduleData.postedAt := Some now2 |}) ].
Proof.
  intros Hok Hl Ht w'. subst w'. unfold run. simpl.
  rewrite !step_ScheduleChange, !step_PostSchedule.
  destruct (scheduleRejected_false_inv _ Hok) as [Hdb Hc].
  unfold handlePostSchedule at 2. rewrite Hok. simpl.
  unfold handlePostSchedule.
  rewrite scheduleRejected_false; simpl; try assumption; try discriminate.
  now rewrite <- app_assoc.
Qed.

(** *** The profile *)

(** X14. In a reachable state whose profile listener is registered, a
    snapshot of an existing document replaces the local profile by the
    document's data and moves the content subscriptions to the document's
    course, closing them when the document has no course or an empty one;
    the lists delivered earlier are left on display. *)
Theorem delivered_profile_moves_the_subscriptions
    (r0 : Store) (w : World) (data : Profile.t) :
  reachable r0 w ->
  profileSub w <> None ->
  let w' := step (ProfileSnapshot (Some data)) w in
  profile (app w') = data
  /\ contentSub w' =
       (if truthy (Profile.course data) then Profile.course data else None)
  /\ assignments (app w') = assignments (app w)
  /\ schedule (app w') = schedule (app w).
Proof.
  intros Hreach Hsub w'.
  pose proof (reachable_contentSub r0 _ (reachable_step r0
                (ProfileSnapshot (Some data)) w Hreach)) as Hsub'.
  fold w' in Hsub'. rewrite Hsub'. subst w'.
  unfold step. rewrite run_effects_app. unfold handle.
  destruct (profileSub w) as [uid|] eqn:Hps; [|congruence]. simpl.
  rewrite (reachable_profileSub r0 w Hreach) in Hps.
  destruct (profileTarget_Some _ _ Hps) as (Hdb & Hready & _ & _).
  repeat split. unfold contentTarget. simpl.
  rewrite (present_true _ Hdb), Hready. simpl.
  now destruct (truthy (Profile.course data)).
Qed.

Lemma initializeProfile_stored
    (w : World) (uid : string) (now : Timestamp) (stored : Profile.t) :
  profiles (remote w) !! uid = Some stored ->
  initializeProfile uid now (Resolved tt) (Resolved tt) w = deliver_profile stored w.
Proof. intros Hs. unfold initializeProfile, getDoc. now rewrite Hs. Qed.

Lemma initializeProfile_absent (w : World) (uid : string) (now : Timestamp) :
  profiles (remote w) !! uid = None ->
  initializeProfile uid now (Resolved tt) (Resolved tt) w
  = deliver_profile (defaultProfile uid now)
      (with_remote
         (with_profiles (<[uid := defaultProfile uid now]> (profiles (remote w)))
            (remote w)) w).
Proof. intros Hs. unfold initializeProfile, getDoc. now rewrite Hs. Qed.

(** X15. Bootstrapping twice is bootstrapping once: a second
    [initializeProfile] for the same user id, after one whose reads and
    writes resolved, writes nothing (the stored [lastLogin] is not
    refreshed) and leaves the local profile as the first one set it. *)
Theorem second_bootstrap_changes_nothing
    (w : World) (uid : string) (now1 now2 : Timestamp) :
  let w1 := initializeProfile uid now1 (Resolved tt) (Resolved tt) w in
  let w2 := initializeProfile uid now2 (Resolved tt) (Resolved tt) w1 in
  remote w2 = remote w1 /\ profile (app w2) = profile (app w1)
  /\ console w2 = console w1 /\ unhandled w2 = unhandled w1.
Proof.
  intros w1 w2. subst w1 w2.
  destruct (profiles (remote w) !! uid) as [stored|] eqn:Hstored.
  - rewrite (initializeProfile_stored w uid now1 stored Hstored).
    rewrite (initializeProfile_stored _ uid now2 stored) by exact Hstored.
    simpl. auto.
  - rewrite (initializeProfile_absent w uid now1 Hstored).
    rewrite (initializeProfile_stored _ uid now2 (defaultProfile uid now1))
      by apply lookup_insert_eq.
    simpl. auto.
Qed.

Lemma substring_whole (s : string) : String.substring 0 (String.length s) s = s.
Proof.
  induction s as [|c s IH]; simpl; [reflexivity | now rewrite IH].
Qed.

(** X16. For a user id of at most 8 characters the default profile's
    [facultyId] is the whole id. *)
Theorem short_user_id_is_its_own_faculty_id (uid : string) (now : Timestamp) :
  String.length uid <= 8 ->
  Profile.facultyId (defaultProfile uid now) = Some uid.
Proof.
  intros Hlen. simpl. rewrite js_substring_from_0.
  rewrite Nat.min_r by exact Hlen. now rewrite substring_whole.
Qed.

Lemma contentEffect_pendingInit (w : World) :
  pendingInit (contentEffect w) = pendingInit w.
Proof. unfold contentEffect. repeat case_match; reflexivity. Qed.

(** X18. In a reachable state with the auth listener registered, a
    notification that brings a non-empty user id different from the recorded
    one moves the profile listener to the new id's document and starts
    exactly one [initializeProfile] for it; a notification that repeats the
    recorded id of a ready session starts none and leaves the listener where
    it is. *)
Theorem identity_change_restarts_the_profile_setup
    (r0 : Store) (w : World) (user : option string) (uuid : string) :
  reachable r0 w ->
  authListener w = true ->
  let uid := match user with Some u => u | None => uuid end in
  let w' := step (AuthStateChanged user uuid) w in
  (uid <> "" -> userId (app w) <> Some uid ->
   profileSub w' = Some uid /\ pendingInit w' = pendingInit w ++ [uid])
  /\ (userId (app w) = Some uid -> isAuthReady (app w) = true ->
      profileSub w' = profileSub w /\ pendingInit w' = pendingInit w).
Proof.
  intros Hreach Hl uid w'.
  destruct (reachable_sessionInv r0 w Hreach) as [Hlis _].
  destruct (Hlis Hl) as [Hdb _].
  assert (handle (AuthStateChanged user uuid) w
          = render (setLoading false)
              (render (setIsAuthReady true) (render (setUserId (Some uid)) w)))
    as Hh.
  { simpl. rewrite Hl. unfold onAuthStateChanged. subst uid.
    now destruct user. }
  subst w'. unfold step. rewrite Hh. unfold run_effects. split.
  - intros Hne Hdiff.
    match goal with
    | |- context [decide (profileDeps ?a = profileDeps ?b)] =>
        destruct (decide (profileDeps a = profileDeps b)) as [Heq | _]
    end.
    { unfold profileDeps in Heq. simpl in Heq. injection Heq as Hu _.
      now destruct Hdiff. }
    assert (profileSub (profileEffect (render (setLoading false)
              (render (setIsAuthReady true) (render (setUserId (Some uid)) w))))
            = Some uid
            /\ pendingInit (profileEffect (render (setLoading false)
                 (render (setIsAuthReady true) (render (setUserId (Some uid)) w))))
               = pendingInit w ++ [uid]) as [Hps Hpi].
    { unfold profileEffect. simpl. rewrite (present_true _ Hdb). simpl.
      apply truthy_string_true in Hne. rewrite Hne. simpl. auto. }
    match goal with |- context [decide ?P] => destruct (decide P) end;
      rewrite ?contentEffect_profileSub, ?contentEffect_pendingInit; auto.
  - intros Hsame Hready.
    match goal with
    | |- context [decide (profileDeps ?a = profileDeps ?b)] =>
        destruct (decide (profileDeps a = profileDeps b)) as [_ | Hneq]
    end.
    2: { destruct Hneq. unfold profileDeps. simpl. now rewrite Hsame, Hready. }
    match goal with |- context [decide ?P] => destruct (decide P) end;
      rewrite ?contentEffect_profileSub, ?contentEffect_pendingInit; auto.
Qed.

Lemma reachable_run (r0 : Store) (es : list Event) (w : World) :
  reachable r0 w -> reachable r0 (run es w).
Proof.
  revert w. induction es as [|e es IH]; intros w Hw; simpl; [exact Hw|].
  apply IH. now apply reachable_step.
Qed.

End Component.

(** ** The order of the delivered assignments under the SDK *)

Lemma round_half_even_error (n d : Z) :
  (0 < d -> 2 * Z.abs (round_half_even n d * d - n) <= d)%Z.
Proof.
  intros Hd. unfold round_half_even.
  pose proof (Z.div_mod n d ltac:(lia)) as Hdm.
  pose proof (Z.mod_pos_bound n d Hd) as Hr.
  set (q := (n / d)%Z) in *. set (r := (n mod d)%Z) in *.
  assert (d * q = n - r)%Z as Hq by lia.
  destruct (Z.ltb_spec (2 * r) d);
    [replace (q * d)%Z with (n - r)%Z by lia; lia|].
  destruct (Z.ltb_spec d (2 * r)).
  - replace ((q + 1) * d)%Z with (n - r + d)%Z by lia. lia.
  - destruct (Z.even q).
    + replace (q * d)%Z with (n - r)%Z by lia. lia.
    + replace ((q + 1) * d)%Z with (n - r + d)%Z by lia. lia.
Qed.

(** The nearest double is within half a unit of the last place: the
    relative error is at most [2 ^ -53]. *)
Lemma nearest_double_error (n d : Z) :
  (0 < n -> 0 < d -> d <= n * 2 ^ 30 -> n < d * 2 ^ 52 ->
   2 * Z.abs (nearest_double n d * d - n * 2 ^ 82) <= n * 2 ^ 30)%Z.
Proof.
  intros Hn Hd Hlo Hhi. unfold nearest_double.
  destruct (Z.leb_spec n 0%Z); [lia|].
  set (q := (n * 2 ^ 30 / d)%Z).
  assert (1 <= q)%Z as Hq1.
  { unfold q. apply Z.div_le_lower_bound; lia. }
  assert (q * d <= n * 2 ^ 30)%Z as Hqd.
  { unfold q. rewrite Z.mul_comm. apply Z.mul_div_le. lia. }
  assert (q < 2 ^ 83)%Z as Hq2.
  { unfold q. apply Z.div_lt_upper_bound; [lia|].
    change (2 ^ 83)%Z with (2 ^ 52 * 2 ^ 31)%Z.
    change (2 ^ 30)%Z with 1073741824%Z in *.
    change (2 ^ 52)%Z with 4503599627370496%Z in *.
    change (2 ^ 31)%Z with 2147483648%Z. nia. }
  pose proof (Z.log2_spec q ltac:(lia)) as [Hlog _].
  pose proof (Z.log2_nonneg q) as He0.
  assert (Z.log2 q < 83)%Z as He1.
  { apply Z.log2_lt_pow2; lia. }
  set (e := Z.log2 q) in *.
  rewrite (Z.max_r 0 (82 - e)) by lia.
  rewrite (Z.max_l 0 (e - 82)) by lia.
  rewrite Z.pow_0_r, Z.mul_1_r.
  pose proof (round_half_even_error (n * 2 ^ (82 - e)) d Hd) as Herr.
  set (m := round_half_even (n * 2 ^ (82 - e)) d) in *.
  assert (0 < 2 ^ e)%Z as Hpe by (apply Z.pow_pos_nonneg; lia).
  assert (2 ^ (82 - e) * 2 ^ e = 2 ^ 82)%Z as Hpow.
  { rewrite <- Z.pow_add_r by lia. f_equal. lia. }
  assert (m * 2 ^ e * d - n * 2 ^ 82 = (m * d - n * 2 ^ (82 - e)) * 2 ^ e)%Z as ->.
  { rewrite <- Hpow. ring. }
  rewrite Z.abs_mul, (Z.abs_eq (2 ^ e)) by lia.
  assert (2 ^ e * d <= n * 2 ^ 30)%Z as Hbound by nia.
  nia.
Qed.

Lemma sinceYearOne_range (t : Timestamp) :
  validTimestamp t -> (0 <= sinceYearOne t < 2 ^ 69)%Z.
Proof.
  unfold validTimestamp, sinceYearOne, MIN_SECONDS, MAX_SECONDS.
  change (2 ^ 69)%Z with 590295810358705651712%Z. lia.
Qed.

Lemma toNumber_error (t : Timestamp) :
  validTimestamp t ->
  (2 * Z.abs (toNumber t * 1000000000 - sinceYearOne t * 2 ^ 82)
   <= sinceYearOne t * 2 ^ 30)%Z.
Proof.
  intros Hv. pose proof (sinceYearOne_range t Hv) as Hr. unfold toNumber.
  destruct (Z.eq_dec (sinceYearOne t) 0%Z) as [H0 | H0].
  - rewrite H0. reflexivity.
  - change (2 ^ 69)%Z with 590295810358705651712%Z in Hr.
    apply nearest_double_error;
      change (2 ^ 30)%Z with 1073741824%Z;
      change (2 ^ 52)%Z with 4503599627370496%Z; lia.
Qed.

(** Only the first instant of year 0001 reads as the number 0 or less. *)
Lemma toNumber_zero (t : Timestamp) :
  validTimestamp t -> (toNumber t <= 0)%Z -> sinceYearOne t = 0%Z.
Proof.
  intros Hv Hz. pose proof (toNumber_error t Hv) as He.
  pose proof (sinceYearOne_range t Hv) as Hr.
  change (2 ^ 82)%Z with 4835703278458516698824704%Z in He.
  change (2 ^ 30)%Z with 1073741824%Z in He. lia.
Qed.

(** Timestamps a millisecond or more apart read as different numbers, in
    the order of the timestamps. *)
Lemma toNumber_separates (t1 t2 : Timestamp) :
  validTimestamp t1 -> validTimestamp t2 ->
  (sinceYearOne t1 + 1000000 <= sinceYearOne t2)%Z ->
  (toNumber t1 < toNumber t2)%Z.
Proof.
  intros Hv1 Hv2 Hgap.
  pose proof (toNumber_error t1 Hv1) as He1.
  pose proof (toNumber_error t2 Hv2) as He2.
  pose proof (sinceYearOne_range t1 Hv1) as Hr1.
  pose proof (sinceYearOne_range t2 Hv2) as Hr2.
  change (2 ^ 82)%Z with 4835703278458516698824704%Z in *.
  change (2 ^ 30)%Z with 1073741824%Z in *.
  change (2 ^ 69)%Z with 590295810358705651712%Z in *.
  lia.
Qed.

Lemma sinceYearOne_zero (t : Timestamp) :
  validTimestamp t -> sinceYearOne t = 0%Z ->
  t = {| seconds := MIN_SECONDS; nanoseconds := 0 |}.
Proof.
  destruct t as [secs nanos]. unfold validTimestamp, sinceYearOne. simpl.
  intros [Hs Hn] H0.
  assert (secs = MIN_SECONDS) as -> by (unfold MIN_SECONDS in *; lia).
  assert (nanos = 0%Z) as -> by lia. reflexivity.
Qed.

Lemma delivered_assignment_is_of_a_document
    (docs : list (string * AssignmentData.t)) (a : Assignment.t) (i : nat) :
  assignmentsList (Sdk := firebaseSdk) docs !! i = Some a ->
  exists d, In d docs /\ a = assignmentOfDoc (Sdk := firebaseSdk) d.
Proof.
  intros Hi.
  destruct (assignmentsList_sorted_by_number (Sdk := firebaseSdk) docs) as [Hperm _].
  apply list_elem_of_lookup_2, list_elem_of_In in Hi.
  apply (Permutation_in _ (Permutation_sym Hperm)) in Hi.
  apply in_map_iff in Hi. destruct Hi as [d [Heq Hin]]. eauto.
Qed.

(** C3 (amended). For every batch of documents whose [postedAt], when
    present, is a timestamp of the SDK's range, the list that the
    assignments listener hands to [setAssignments] holds exactly the
    projected documents of the batch, each with the [postedAt] of its
    document, in descending order of the number the comparator reads from
    [postedAt]: the time since year 0001 rounded to the nearest double, and 0
    when [postedAt] is missing.  Hence no record stands before a record
    posted a millisecond or more later, and after a record without
    [postedAt] come only records without [postedAt] or with the earliest
    timestamp the SDK allows. *)
Theorem assignments_delivered_sorted_descending
    (docs : list (string * AssignmentData.t)) (w : World) :
  Forall (fun d => forall t, AssignmentData.postedAt (snd d) = Some t ->
                             validTimestamp t) docs ->
  let l := assignments (app (onAssignmentsSnapshot (Sdk := firebaseSdk) docs w)) in
  Permutation (map (assignmentOfDoc (Sdk := firebaseSdk)) docs) l
  /\ Permutation (map (fun d => AssignmentData.postedAt (snd d)) docs)
       (map Assignment.postedAt l)
  /\ (forall (i j : nat) (a b : Assignment.t),
        i < j -> l !! i = Some a -> l !! j = Some b ->
        (postedAtOrZero (Sdk := firebaseSdk) b
         <= postedAtOrZero (Sdk := firebaseSdk) a)%Z)
  /\ (forall (i j : nat) (a b : Assignment.t) (ta tb : Timestamp),
        i < j -> l !! i = Some a -> l !! j = Some b ->
        Assignment.postedAt a = Some ta -> Assignment.postedAt b = Some tb ->
        (sinceYearOne tb < sinceYearOne ta + 1000000)%Z)
  /\ (forall (i j : nat) (a b : Assignment.t),
        i < j -> l !! i = Some a -> l !! j = Some b ->
        Assignment.postedAt a = None ->
        Assignment.postedAt b = None
        \/ Assignment.postedAt b = Some {| seconds := MIN_SECONDS; nanoseconds := 0 |})
  /\ (forall (i : nat) (a : Assignment.t),
        l !! i = Some a ->
        exists d : string * AssignmentData.t,
          In d docs
          /\ Assignment.postedAt a = AssignmentData.postedAt (snd d)
          /\ Assignment.title a = AssignmentData.title (snd d)
          /\ Assignment.description a = AssignmentData.description (snd d)
          /\ Assignment.course a = AssignmentData.course (snd d)
          /\ Assignment.postedBy a = AssignmentData.postedBy (snd d)
          /\ Assignment.dueDate a = option_map toDate (AssignmentData.dueDate (snd d))
          /\ Assignment.id a =
               match AssignmentData.id (snd d) with
               | Some stored => stored
               | None => fst d
               end).
Proof.
  intros Hvalid l. subst l. simpl.
  destruct (assignmentsList_sorted_by_number (Sdk := firebaseSdk) docs)
    as [Hperm Hsorted].
  assert (forall (i : nat) (a : Assignment.t) (t : Timestamp),
             assignmentsList (Sdk := firebaseSdk) docs !! i = Some a ->
             Assignment.postedAt a = Some t -> validTimestamp t) as Hval.
  { intros i a t Hi Ht.
    destruct (delivered_assignment_is_of_a_document docs a i Hi) as [d [Hin ->]].
    rewrite Forall_forall in Hvalid.
    apply (Hvalid d); [now apply list_elem_of_In | exact Ht]. }
  assert (forall (i j : nat) (a b : Assignment.t),
             i < j ->
             assignmentsList (Sdk := firebaseSdk) docs !! i = Some a ->
             assignmentsList (Sdk := firebaseSdk) docs !! j = Some b ->
             (postedAtOrZero (Sdk := firebaseSdk) b
              <= postedAtOrZero (Sdk := firebaseSdk) a)%Z) as Hord.
  { intros i j a b Hij Ha Hb.
    exact (StronglySorted_lookup _ _ Hsorted i j a b Hij Ha Hb). }
  split; [exact Hperm|]. split; [|split; [exact Hord|split; [|split]]].
  - apply (Permutation_map Assignment.postedAt) in Hperm.
    rewrite map_map in Hperm. exact Hperm.
  - intros i j a b ta tb Hij Ha Hb Hta Htb.
    pose proof (Hord i j a b Hij Ha Hb) as Hab.
    unfold postedAtOrZero in Hab. rewrite Hta, Htb in Hab. simpl in Hab.
    destruct (Z.lt_ge_cases (sinceYearOne tb) (sinceYearOne ta + 1000000))
      as [Hlt | Hge]; [exact Hlt|].
    pose proof (toNumber_separates ta tb (Hval i a ta Ha Hta) (Hval j b tb Hb Htb)
                  ltac:(lia)).
    lia.
  - intros i j a b Hij Ha Hb Hnone.
    pose proof (Hord i j a b Hij Ha Hb) as Hab.
    unfold postedAtOrZero in Hab. rewrite Hnone in Hab.
    destruct (Assignment.postedAt b) as [tb|] eqn:Htb; [right | now left].
    simpl in Hab. f_equal.
    apply sinceYearOne_zero; [exact (Hval j b tb Hb Htb)|].
    apply toNumber_zero; [exact (Hval j b tb Hb Htb) | exact Hab].
  - intros i a Hi.
    destruct (delivered_assignment_is_of_a_document docs a i Hi) as [d [Hin ->]].
    exists d. split; [exact Hin|]. unfold assignmentOfDoc. simpl.
    destruct (AssignmentData.dueDate (snd d)); repeat split.
Qed.

(** ** The properties on concrete runs *)

Lemma postAssignment_appends_one_and_resets_witness :
  let w' := handlePostAssignment (Sdk := firebaseSdk) sampleNow (Resolved "a1") sampleWorld in
  exists doc : AssignmentData.t,
    assignmentsColl (remote w') = [("a1", doc)]
    /\ AssignmentData.course doc = Some "CS101"
    /\ AssignmentData.postedBy doc = Some "Dr. Smith"
    /\ AssignmentData.title doc = Some "Essay 1"
    /\ AssignmentData.dueDate doc = Some {| seconds := 1764547200; nanoseconds := 0 |}
    /\ newAssignment (app w') =
         {| NewAssignment.title := ""; NewAssignment.description := "";
            NewAssignment.dueDate := ""; NewAssignment.course := Some "CS101" |}.
Proof.
  destruct (postAssignment_appends_one_and_resets (Sdk := firebaseSdk)
              sampleWorld sampleNow {| seconds := 1764547200; nanoseconds := 0 |} "a1")
    as (doc & Hcoll & _ & _ & Hcourse & Hby & Htitle & _ & Hdue & _);
    [discriminate | discriminate | discriminate | discriminate
    | reflexivity | reflexivity |].
  exists doc. repeat split; assumption || reflexivity.
Defined.

(** C1 (counterexample). The form holds a title, a description and the due
    date "10000-01-01", the profile has a course and the database handle is
    set; [Timestamp.fromDate] throws on that date, before [addDoc] is
    reached: nothing is appended, the form is not reset, and the exception
    is an unhandled rejection. *)
Lemma postAssignment_with_due_date_out_of_range_appends_nothing :
  let w := lateDueWorld in
  let w' := handlePostAssignment (Sdk := firebaseSdk) sampleNow (Resolved "a1") w in
  db (app w) <> None
  /\ NewAssignment.title (newAssignment (app w)) = "Essay 1"
  /\ NewAssignment.description (newAssignment (app w)) = "Two pages on recursion"
  /\ NewAssignment.dueDate (newAssignment (app w)) = "10000-01-01"
  /\ Profile.course (profile (app w)) = Some "CS101"
  /\ assignmentsColl (remote w') = assignmentsColl (remote w)
  /\ newAssignment (app w') = newAssignment (app w)
  /\ console w' = console w
  /\ unhandled w' = ["Timestamp seconds out of range"].
Proof. repeat split; try discriminate; vm_compute; reflexivity. Qed.

Lemma post_failure_logs_and_keeps_form_witness :
  let wa := handlePostAssignment (Sdk := firebaseSdk) sampleNow (Rejected "unavailable")
              sampleWorld in
  app wa = app sampleWorld /\ remote wa = remote sampleWorld
  /\ unhandled wa = []
  /\ console wa = [ {| message := "Error posting assignment:";
                       detail := Some "unavailable" |} ].
Proof.
  destruct (post_failure_logs_and_keeps_form (Sdk := firebaseSdk)
              sampleWorld sampleNow "unavailable") as [(Happ & Hrem & Hlog) _].
  destruct (Hlog eq_refl {| seconds := 1764547200; nanoseconds := 0 |} eq_refl)
    as [Hun Hcon].
  repeat split; assumption.
Defined.

Lemma postAssignment_incomplete_is_noop_witness :
  handlePostAssignment (Sdk := firebaseSdk) sampleNow (Resolved "a1") (initialWorld emptyStore)
  = initialWorld emptyStore.
Proof.
  apply (postAssignment_incomplete_is_noop (Sdk := firebaseSdk)).
  right. left. reflexivity.
Defined.

(** The specification's scenario for schedule entries. *)
Lemma postSchedule_appends_one_and_resets_witness :
  let w' := handlePostSchedule sampleNow (Resolved "s1") sampleWorld in
  exists doc : ScheduleData.t,
    scheduleColl (remote w') = [("s1", doc)]
    /\ ScheduleData.course doc = Some "CS101"
    /\ ScheduleData.location doc = Some "SW-305"
    /\ ScheduleData.time doc = Some "9:00-10:30"
    /\ ScheduleData.day doc = Some "Monday"
    /\ ScheduleData.instructor doc = Some "Dr. Smith"
    /\ newSchedule (app w') =
         {| NewSchedule.course := Some "CS101"; NewSchedule.location := "";
            NewSchedule.time := ""; NewSchedule.day := "Monday";
            NewSchedule.instructor := Some "Dr. Smith" |}.
Proof.
  destruct (postSchedule_appends_one_and_resets sampleWorld sampleNow "s1")
    as (doc & Hcoll & _ & _ & Hi & Hc & Hl & Ht & Hd & _);
    [discriminate | discriminate | discriminate | discriminate | reflexivity |].
  exists doc. repeat split; assumption || reflexivity.
Defined.

(** The specification's scenario for the profile bootstrap. *)
Lemma openProfile_bootstrap_witness :
  Profile.facultyId
    (profile (app (initializeProfile "abcdefgh12345" sampleNow
                     (Resolved tt) (Resolved tt) sampleWorld)))
  = Some "abcdefgh".
Proof.
  destruct (openProfile_bootstrap sampleWorld "abcdefgh12345" sampleNow)
    as [Habsent _].
  destruct (Habsent eq_refl) as (Hp & _ & _).
  rewrite Hp. reflexivity.
Defined.

(** C6 (counterexample). After the initialisation effect and the first
    auth-state notification the content subscriptions are open, filtered by
    the placeholder course, although the profile store has delivered
    nothing. *)
Lemma content_subscriptions_open_before_any_profile_delivery :
  let w :=
    step (Sdk := firebaseSdk) (AuthStateChanged (Some "abcdefgh12345") "3f6c")
      (step (Sdk := firebaseSdk) (Mount InitOk) (initialWorld emptyStore)) in
  reachable (Sdk := firebaseSdk) emptyStore w
  /\ contentSub w = Some "CS101"
  /\ delivered w = 0.
Proof.
  split.
  - apply reachable_step, reachable_step, reachable_init.
  - split; vm_compute; reflexivity.
Qed.

Lemma content_subscriptions_follow_local_profile_witness :
  let w :=
    step (Sdk := firebaseSdk) (AuthStateChanged (Some "abcdefgh12345") "3f6c")
      (step (Sdk := firebaseSdk) (Mount InitOk) (initialWorld emptyStore)) in
  db (app w) <> None
  /\ isAuthReady (app w) = true
  /\ Profile.course (profile (app w)) = Some "CS101"
  /\ "CS101" <> ""
  /\ (delivered w = 0 -> profile (app w) = initialProfile /\ "CS101" = "CS101").
Proof.
  apply (content_subscriptions_follow_local_profile (Sdk := firebaseSdk) emptyStore).
  - apply reachable_step, reachable_step, reachable_init.
  - vm_compute. reflexivity.
Defined.

(** C7 (counterexample). The listener first reports no user, so a local id
    is recorded; when the sign-in completes it reports the user and the
    recorded id is replaced. *)
Lemma identity_replaced_by_second_auth_notification :
  let w1 :=
    step (Sdk := firebaseSdk) (AuthStateChanged None "3f6c")
      (step (Sdk := firebaseSdk) (Mount InitOk) (initialWorld emptyStore)) in
  let w2 := step (Sdk := firebaseSdk) (AuthStateChanged (Some "abcdefgh12345") "77aa") w1 in
  reachable (Sdk := firebaseSdk) emptyStore w1
  /\ userId (app w1) = Some "3f6c"
  /\ userId (app w2) = Some "abcdefgh12345"
  /\ userId (app w2) <> userId (app w1).
Proof.
  split.
  - apply reachable_step, reachable_step, reachable_init.
  - repeat split; vm_compute; congruence.
Qed.

Lemma identity_written_only_by_auth_callback_witness :
  userId (app (step (Sdk := firebaseSdk) (ProfileError "unavailable") sampleWorld))
  = Some "abcdefgh12345"
  /\ userId (app (step (Sdk := firebaseSdk) (AuthStateChanged None "3f6c") sampleWorld))
     = Some "3f6c".
Proof.
  destruct (identity_written_only_by_auth_callback (Sdk := firebaseSdk) sampleWorld)
    as [Hother Hauth].
  split.
  - rewrite Hother; [reflexivity | discriminate].
  - rewrite (Hauth None "3f6c" eq_refl). reflexivity.
Defined.

(** C8 on a concrete run: the profile read fails right after sign-in. *)
Example profile_read_failure_run :
  let w :=
    step (Sdk := firebaseSdk) (AuthStateChanged (Some "abcdefgh12345") "3f6c")
      (step (Sdk := firebaseSdk) (Mount InitOk) (initialWorld emptyStore)) in
  let w' :=
    step (Sdk := firebaseSdk)
      (ProfileInit "abcdefgh12345" sampleNow (Rejected "unavailable") (Resolved tt)) w in
  pendingInit w = ["abcdefgh12345"]
  /\ console w' = []
  /\ unhandled w' = ["unavailable"]
  /\ profile (app w') = initialProfile.
Proof. repeat split; vm_compute; reflexivity. Qed.

Lemma assignments_delivered_sorted_descending_witness :
  let doc (t : option Timestamp) :=
    {| AssignmentData.id := None;
       AssignmentData.title := None; AssignmentData.description := None;
       AssignmentData.course := Some "CS101"; AssignmentData.dueDate := None;
       AssignmentData.postedBy := None; AssignmentData.postedAt := t |} in
  let docs :=
    [ ("a", doc (Some {| seconds := 1762041600; nanoseconds := 0 |}));
      ("b", doc None);
      ("c", doc (Some {| seconds := 1762041600; nanoseconds := 250000000 |})) ] in
  Permutation (map (fun d => AssignmentData.postedAt (snd d)) docs)
    (map Assignment.postedAt (assignmentsList (Sdk := firebaseSdk) docs))
  /\ map Assignment.id (assignmentsList (Sdk := firebaseSdk) docs) = ["c"; "a"; "b"].
Proof.
  intros doc docs. split; [|reflexivity].
  refine (proj1 (proj2 (assignments_delivered_sorted_descending docs sampleWorld _))).
  constructor; [intros t Ht | constructor; [intros t Ht | constructor;
    [intros t Ht | constructor]]];
    cbv in Ht; try discriminate;
    injection Ht as <-; unfold validTimestamp, MIN_SECONDS, MAX_SECONDS; simpl; lia.
Defined.

(** C3 (counterexample). Two documents of one second, the second one
    posted a microsecond after the first: both timestamps read as the same
    number, the stable sort leaves the snapshot's order, and the earlier
    record is delivered before the later one. *)
Lemma assignments_a_microsecond_apart_stay_in_snapshot_order :
  let older := {| seconds := 1762041600; nanoseconds := 0 |} in
  let newer := {| seconds := 1762041600; nanoseconds := 1000 |} in
  let doc (t : Timestamp) :=
    {| AssignmentData.id := None;
       AssignmentData.title := None; AssignmentData.description := None;
       AssignmentData.course := Some "CS101"; AssignmentData.dueDate := None;
       AssignmentData.postedBy := None; AssignmentData.postedAt := Some t |} in
  validTimestamp older /\ validTimestamp newer
  /\ (sinceYearOne older < sinceYearOne newer)%Z
  /\ toNumber older = toNumber newer
  /\ map (fun a => (Assignment.id a, Assignment.postedAt a))
       (assignmentsList (Sdk := firebaseSdk) [ ("old", doc older); ("new", doc newer) ])
     = [ ("old", Some older); ("new", Some newer) ].
Proof.
  intros older newer doc.
  repeat split; try (vm_compute; discriminate); vm_compute; reflexivity.
Qed.

(** The number read from a timestamp, on values that doubles hold
    exactly and on two that they do not. *)
Example toNumber_values :
  toNumber {| seconds := 1762041600; nanoseconds := 0 |} = (63897638400 * 2 ^ 82)%Z
  /\ toNumber {| seconds := 1762041600; nanoseconds := 500000000 |}
     = (127795276801 * 2 ^ 81)%Z
  /\ toNumber {| seconds := 1762041600; nanoseconds := 3814 |}
     = (63897638400 * 2 ^ 82)%Z
  /\ toNumber {| seconds := 1762041600; nanoseconds := 3815 |}
     = ((63897638400 * 2 ^ 17 + 1) * 2 ^ 65)%Z.
Proof. repeat split; vm_compute; reflexivity. Qed.

(** C3 on a concrete batch: a document without [postedAt] is delivered
    last, the others by decreasing [postedAt]. *)
Example assignments_sorted_run :
  let doc (t : option Timestamp) :=
    {| AssignmentData.id := None;
       AssignmentData.title := None; AssignmentData.description := None;
       AssignmentData.course := Some "CS101"; AssignmentData.dueDate := None;
       AssignmentData.postedBy := None; AssignmentData.postedAt := t |} in
  map Assignment.id
    (assignmentsList (Sdk := firebaseSdk)
       [ ("a", doc (Some {| seconds := 10; nanoseconds := 0 |}));
         ("b", doc None);
         ("c", doc (Some {| seconds := 30; nanoseconds := 5 |}));
         ("d", doc (Some {| seconds := 30; nanoseconds := 0 |})) ])
  = ["c"; "d"; "a"; "b"].
Proof. vm_compute. reflexivity. Qed.

(** ** The further properties on concrete runs *)

(** The state after a successful initialisation and the sign-in of user
    "abcdefgh12345", and that state with the assignment form filled in. *)
Definition readyWorld : World :=
  run (Sdk := firebaseSdk)
    [ Mount InitOk; AuthStateChanged (Some "abcdefgh12345") "3f6c" ]
    (initialWorld emptyStore).

Definition readyFilledWorld : World :=
  run (Sdk := firebaseSdk)
    [ AssignmentChange F_title "Essay 1";
      AssignmentChange F_description "Two pages on recursion";
      AssignmentChange F_dueDate "2025-12-01" ]
    readyWorld.

Lemma readyWorld_reachable : reachable (Sdk := firebaseSdk) emptyStore readyWorld.
Proof. apply reachable_run, reachable_init. Qed.

Lemma readyFilledWorld_reachable :
  reachable (Sdk := firebaseSdk) emptyStore readyFilledWorld.
Proof. apply reachable_run, readyWorld_reachable. Qed.

Lemma assignments_in_descending_order_are_delivered_as_received_witness :
  let doc (t : option Timestamp) :=
    {| AssignmentData.id := None;
       AssignmentData.title := None; AssignmentData.description := None;
       AssignmentData.course := Some "CS101"; AssignmentData.dueDate := None;
       AssignmentData.postedBy := None; AssignmentData.postedAt := t |} in
  map Assignment.id
    (assignmentsList (Sdk := firebaseSdk)
       [ ("c", doc (Some {| seconds := 30; nanoseconds := 5 |}));
         ("a", doc (Some {| seconds := 10; nanoseconds := 0 |}));
         ("b", doc None) ])
  = ["c"; "a"; "b"].
Proof.
  intros doc.
  rewrite (assignments_in_descending_order_are_delivered_as_received
             (Sdk := firebaseSdk)).
  - reflexivity.
  - repeat match goal with
           | |- StronglySorted _ _ => constructor
           | |- Forall _ _ => constructor
           end;
      unfold notEarlier; vm_compute; discriminate.
Defined.

Lemma failed_initialisation_is_final_witness :
  let w :=
    run (Sdk := firebaseSdk)
      [ AuthStateChanged (Some "abcdefgh12345") "3f6c";
        AssignmentChange F_title "Essay 1";
        AssignmentChange F_description "Two pages on recursion";
        AssignmentChange F_dueDate "2025-12-01";
        PostAssignment sampleNow (Resolved "a1") ]
      (step (Sdk := firebaseSdk) (Mount ConfigMissing) (initialWorld emptyStore)) in
  db (app w) = None /\ isAuthReady (app w) = false /\ remote w = emptyStore
  /\ renderApp "assignments" (app w)
     = Some (Dashboard (Some "RBC Faculty") (Some "CS101") PreparingDashboard).
Proof.
  intros w.
  destruct (failed_initialisation_is_final (Sdk := firebaseSdk) emptyStore ConfigMissing
              [ AuthStateChanged (Some "abcdefgh12345") "3f6c";
                AssignmentChange F_title "Essay 1";
                AssignmentChange F_description "Two pages on recursion";
                AssignmentChange F_dueDate "2025-12-01";
                PostAssignment sampleNow (Resolved "a1") ])
    as [(_ & Hready & _ & _ & _ & Hview) Hearly]; [discriminate|].
  destruct (Hearly ltac:(discriminate)) as (Hdb & Hrem & _).
  split; [exact Hdb | split; [exact Hready | split; [exact Hrem | apply Hview]]].
Defined.

Lemma ready_session_has_identity_witness :
  userId (app readyWorld) <> None /\ loading (app readyWorld) = false
  /\ db (app readyWorld) <> None.
Proof.
  apply (ready_session_has_identity (Sdk := firebaseSdk) emptyStore).
  - exact readyWorld_reachable.
  - reflexivity.
Defined.

Lemma profile_listener_follows_identity_witness :
  profileSub readyWorld = Some "abcdefgh12345".
Proof.
  destruct (profile_listener_follows_identity (Sdk := firebaseSdk) emptyStore readyWorld
              readyWorld_reachable) as [_ Hopen].
  apply Hopen; [discriminate | reflexivity | reflexivity | discriminate].
Defined.

Lemma accepted_post_is_filed_under_the_subscribed_course_witness :
  let w' := step (Sdk := firebaseSdk) (PostAssignment sampleNow (Resolved "a1"))
              readyFilledWorld in
  exists (c : string) (doc : AssignmentData.t),
    contentSub readyFilledWorld = Some c /\ contentSub w' = Some c
    /\ assignmentsColl (remote w')
       = assignmentsColl (remote readyFilledWorld) ++ [("a1", doc)]
    /\ AssignmentData.course doc = Some c.
Proof.
  destruct (accepted_post_is_filed_under_the_subscribed_course (Sdk := firebaseSdk)
              emptyStore readyFilledWorld sampleNow (Resolved "a1")
              readyFilledWorld_reachable eq_refl) as [Hassignment _].
  destruct Hassignment as [Hsame | (new_id & c & doc & Hid & Hs & Hs' & Hcoll & Hc)].
  - vm_compute in Hsame. discriminate.
  - injection Hid as <-. exists c, doc. auto.
Defined.

Lemma resubmitting_a_cleared_form_does_nothing_witness :
  let w1 := handlePostAssignment (Sdk := firebaseSdk) sampleNow (Resolved "a1")
              sampleWorld in
  handlePostAssignment (Sdk := firebaseSdk) sampleNow (Resolved "a2") w1 = w1.
Proof.
  destruct (resubmitting_a_cleared_form_does_nothing (Sdk := firebaseSdk)
              sampleWorld sampleNow sampleNow "a1" (Resolved "a2")) as [Hagain _].
  apply Hagain. vm_compute. discriminate.
Defined.

Lemma typed_assignment_is_posted_witness :
  let w' :=
    run (Sdk := firebaseSdk)
      [ AssignmentChange F_title "Quiz 2"; AssignmentChange F_description "Chapter 3";
        AssignmentChange F_dueDate "2025-12-15";
        PostAssignment sampleNow (Resolved "a2") ] sampleWorld in
  assignmentsColl (remote w') =
    [ ("a2",
       {| AssignmentData.id := None;
          AssignmentData.title := Some "Quiz 2";
          AssignmentData.description := Some "Chapter 3";
          AssignmentData.course := Some "CS101";
          AssignmentData.dueDate :=
            Some {| seconds := 1765756800; nanoseconds := 0 |};
          AssignmentData.postedBy := Some "Dr. Smith";
          AssignmentData.postedAt := Some sampleNow |}) ]
  /\ newAssignment (app w') =
       {| NewAssignment.title := ""; NewAssignment.description := "";
          NewAssignment.dueDate := ""; NewAssignment.course := Some "CS101" |}.
Proof.
  apply (typed_assignment_is_posted (Sdk := firebaseSdk) sampleWorld
           "Quiz 2" "Chapter 3" "2025-12-15" sampleNow
           {| seconds := 1765756800; nanoseconds := 0 |} "a2");
    discriminate || reflexivity.
Defined.

Lemma second_schedule_entry_defaults_to_monday_witness :
  let w := handleScheduleChange F_day "Friday" sampleWorld in
  let w' :=
    run (Sdk := firebaseSdk)
      [ PostSchedule sampleNow (Resolved "s1");
        ScheduleChange F_location "Online"; ScheduleChange F_time "14:00-15:00";
        PostSchedule sampleNow (Resolved "s2") ] w in
  map (fun d => (fst d, ScheduleData.day (snd d))) (scheduleColl (remote w'))
  = [ ("s1", Some "Friday"); ("s2", Some "Monday") ].
Proof.
  intros w w'. subst w'.
  rewrite (second_schedule_entry_defaults_to_monday (Sdk := firebaseSdk) w
             "Online" "14:00-15:00" sampleNow sampleNow "s1" "s2");
    [reflexivity | reflexivity | discriminate | discriminate].
Defined.

Lemma delivered_profile_moves_the_subscriptions_witness :
  let data :=
    {| Profile.name := Some "Dr. Jane Smith"; Profile.facultyId := Some "abcdefgh";
       Profile.email := Some "jane.smith@rbc.edu"; Profile.course := Some "BIO205";
       Profile.lastLogin := None |} in
  let w' := step (Sdk := firebaseSdk) (ProfileSnapshot (Some data)) readyWorld in
  contentSub readyWorld = Some "CS101" /\ contentSub w' = Some "BIO205".
Proof.
  intros data w'. split; [reflexivity|].
  destruct (delivered_profile_moves_the_subscriptions (Sdk := firebaseSdk)
              emptyStore readyWorld data readyWorld_reachable) as (_ & Hsub & _);
    [discriminate|].
  exact Hsub.
Defined.

Lemma short_user_id_is_its_own_faculty_id_witness :
  Profile.facultyId (defaultProfile "abc" sampleNow) = Some "abc".
Proof.
  apply short_user_id_is_its_own_faculty_id. simpl. lia.
Defined.

Lemma rendering_never_throws_witness :
  exists screen : Screen, renderApp "profile" (app readyWorld) = Some screen.
Proof.
  apply (rendering_never_throws (Sdk := firebaseSdk) emptyStore).
  exact readyWorld_reachable.
Defined.

Lemma identity_change_restarts_the_profile_setup_witness :
  let w := step (Sdk := firebaseSdk) (Mount InitOk) (initialWorld emptyStore) in
  let w' := step (Sdk := firebaseSdk) (AuthStateChanged (Some "abcdefgh12345") "3f6c") w in
  profileSub w' = Some "abcdefgh12345" /\ pendingInit w' = ["abcdefgh12345"].
Proof.
  intros w w'.
  destruct (identity_change_restarts_the_profile_setup (Sdk := firebaseSdk)
              emptyStore w (Some "abcdefgh12345") "3f6c") as [Hnew _].
  - apply reachable_step, reachable_init.
  - reflexivity.
  - apply Hnew; discriminate.
Defined.

(** X17 needs reachability: in a state no run produces, ready but without
    a user id, rendering the profile page of the placeholder profile throws. *)
Example profile_page_throws_without_user_id :
  renderApp "profile" (setLoading false (setIsAuthReady true initialApp)) = None.
Proof. reflexivity. Qed.
